(** * TCP BBR agent ([tcp-bbr.cc]): a shallow embedding and its properties

    The agent of [tcp-bbr.cc] keeps its estimates in C++ [double]s and its
    window in an [int].  The embedding keeps both as the code has them:

    - a [double] is an IEEE 754 binary64 value, modelled by the standard
      library's [spec_float] with the operations of [SpecFloat] at precision
      53 and maximal exponent 1024 (round to nearest, ties to even; every
      operation is evaluated in double precision, as on x86-64 with SSE2);
    - an [int] is a [Z] in the 32-bit signed range; signed overflow and a
      [double]-to-[int] conversion whose truncated value does not fit are
      undefined behaviour in C++, modelled by [None];
    - the function-local [static int cycle] of [cycle_gain] is process-wide
      state: it is threaded explicitly, apart from the agent's own fields;
    - [Scheduler::instance().clock()] is the simulator's clock, constant
      during one event: it is the [clock] argument of the functions that
      read it.

    The base class [TcpAgent] is not part of the file: its [recv], [sendmsg]
    and [timeout] do not see the fields declared by [TcpBbrAgent] (the
    derived class declares its own [cwnd_]), and the inherited packet size
    [size_] is a field of the record, supplied at construction. *)

From Stdlib Require Import ZArith Bool List Lia.
From Stdlib Require Import Floats.SpecFloat.
Import ListNotations.

Local Open Scope Z_scope.

(** ** C++ [double] and [int] *)

Module Double.

Definition prec : Z := 53.
Definition emax : Z := 1024.

Definition double : Type := spec_float.

Definition sub : double -> double -> double := SFsub prec emax.
Definition mul : double -> double -> double := SFmul prec emax.
Definition div : double -> double -> double := SFdiv prec emax.

(** [ltb x y] is the C++ comparison [x < y] (and [y > x]); a comparison
    with a NaN is false. *)
Definition ltb : double -> double -> bool := SFltb.
Definition leb : double -> double -> bool := SFleb.

Definition is_nan (x : double) : bool :=
  match x with S754_nan => true | _ => false end.

(** Conversion [int -> double]: exact on the whole [int] range. *)
Definition of_int (z : Z) : double := binary_normalize prec emax z 0 false.

(** The integer part of a finite double, towards zero. *)
Definition trunc (x : double) : option Z :=
  match x with
  | S754_zero _ => Some 0
  | S754_finite s m e =>
      let v := match e with
               | Zneg k => Z.quot (Zpos m) (Z.pow_pos 2 k)
               | _ => Zpos m * 2 ^ e
               end in
      Some (if s then - v else v)
  | S754_infinity _ | S754_nan => None
  end.

(** Source literals.  [0.2] is not a binary64 value: the compiler takes
    the nearest one, which is what a correctly rounded [1 / 5] gives. *)
Definition lit_0_0 : double := S754_zero false.
Definition lit_1_0 : double := S754_finite false 4503599627370496 (-52).
Definition lit_2_0 : double := S754_finite false 4503599627370496 (-51).
Definition lit_1_25 : double := S754_finite false 5629499534213120 (-52).
Definition lit_0_75 : double := S754_finite false 6755399441055744 (-53).
Definition lit_10_0 : double := S754_finite false 5629499534213120 (-49).
Definition lit_0_2 : double := S754_finite false 7205759403792794 (-55).
Definition lit_1e9 : double := S754_finite false 8388608000000000 (-23).

(** [signed b x]: [x] carries the sign bit [b], or is a NaN. *)
Definition signed (b : bool) (x : double) : bool :=
  match x with
  | S754_nan => true
  | S754_zero s | S754_infinity s | S754_finite s _ _ => Bool.eqb s b
  end.

(** [zero_or_nan x]: [x] is a zero of either sign, or a NaN. *)
Definition zero_or_nan (x : double) : bool :=
  match x with
  | S754_nan | S754_zero _ => true
  | _ => false
  end.

End Double.

Module Int.

Definition min_int : Z := - 2 ^ 31.
Definition max_int : Z := 2 ^ 31 - 1.

Definition in_range (z : Z) : bool := (min_int <=? z) && (z <=? max_int).

Definition checked (z : Z) : option Z := if in_range z then Some z else None.

(** [a * b] on [int]: undefined on overflow. *)
Definition mul (a b : Z) : option Z := checked (a * b).

(** Implicit conversion [double -> int]: truncation, undefined when the
    truncated value is not an [int] (and for infinities and NaN). *)
Definition of_double (x : Double.double) : option Z :=
  match Double.trunc x with
  | Some z => checked z
  | None => None
  end.

End Int.

Notation "x <- c1 ;; c2" :=
  (match c1 with Some x => c2 | None => None end)
  (at level 61, c1 at next level, right associativity).

(** ** The agent *)

Inductive BbrState : Type := STARTUP | DRAIN | PROBE_BW | PROBE_RTT.

Definition BbrState_eqb (x y : BbrState) : bool :=
  match x, y with
  | STARTUP, STARTUP | DRAIN, DRAIN
  | PROBE_BW, PROBE_BW | PROBE_RTT, PROBE_RTT => true
  | _, _ => false
  end.

Record TcpBbrAgent : Type := mkAgent {
  pacing_gain_ : Double.double;
  cwnd_gain_ : Double.double;
  max_bandwidth_ : Double.double;
  min_rtt_ : Double.double;
  pacing_rate_ : Double.double;
  cwnd_ : Z;
  state_ : BbrState;
  t_last_rtt_probe_ : Double.double;
  t_state_start_ : Double.double;
  size_ : Z
}.

Definition set_pacing_gain (a : TcpBbrAgent) (v : Double.double) :=
  mkAgent v (cwnd_gain_ a) (max_bandwidth_ a) (min_rtt_ a) (pacing_rate_ a)
    (cwnd_ a) (state_ a) (t_last_rtt_probe_ a) (t_state_start_ a) (size_ a).

Definition set_max_bandwidth (a : TcpBbrAgent) (v : Double.double) :=
  mkAgent (pacing_gain_ a) (cwnd_gain_ a) v (min_rtt_ a) (pacing_rate_ a)
    (cwnd_ a) (state_ a) (t_last_rtt_probe_ a) (t_state_start_ a) (size_ a).

Definition set_min_rtt (a : TcpBbrAgent) (v : Double.double) :=
  mkAgent (pacing_gain_ a) (cwnd_gain_ a) (max_bandwidth_ a) v (pacing_rate_ a)
    (cwnd_ a) (state_ a) (t_last_rtt_probe_ a) (t_state_start_ a) (size_ a).

Definition set_pacing_rate (a : TcpBbrAgent) (v : Double.double) :=
  mkAgent (pacing_gain_ a) (cwnd_gain_ a) (max_bandwidth_ a) (min_rtt_ a) v
    (cwnd_ a) (state_ a) (t_last_rtt_probe_ a) (t_state_start_ a) (size_ a).

Definition set_cwnd (a : TcpBbrAgent) (v : Z) :=
  mkAgent (pacing_gain_ a) (cwnd_gain_ a) (max_bandwidth_ a) (min_rtt_ a)
    (pacing_rate_ a) v (state_ a) (t_last_rtt_probe_ a) (t_state_start_ a)
    (size_ a).

Definition set_state (a : TcpBbrAgent) (v : BbrState) :=
  mkAgent (pacing_gain_ a) (cwnd_gain_ a) (max_bandwidth_ a) (min_rtt_ a)
    (pacing_rate_ a) (cwnd_ a) v (t_last_rtt_probe_ a) (t_state_start_ a)
    (size_ a).

Definition set_t_last_rtt_probe (a : TcpBbrAgent) (v : Double.double) :=
  mkAgent (pacing_gain_ a) (cwnd_gain_ a) (max_bandwidth_ a) (min_rtt_ a)
    (pacing_rate_ a) (cwnd_ a) (state_ a) v (t_state_start_ a) (size_ a).

Definition set_t_state_start (a : TcpBbrAgent) (v : Double.double) :=
  mkAgent (pacing_gain_ a) (cwnd_gain_ a) (max_bandwidth_ a) (min_rtt_ a)
    (pacing_rate_ a) (cwnd_ a) (state_ a) (t_last_rtt_probe_ a) v (size_ a).

(** The constructor; [size] is the packet size the base class holds. *)
Definition new_TcpBbrAgent (size : Z) : TcpBbrAgent :=
  {| pacing_gain_ := Double.lit_1_0;
     cwnd_gain_ := Double.lit_2_0;
     max_bandwidth_ := Double.lit_0_0;
     min_rtt_ := Double.lit_1e9;
     pacing_rate_ := Double.lit_0_0;
     cwnd_ := 0;
     state_ := STARTUP;
     t_last_rtt_probe_ := Double.lit_0_0;
     t_state_start_ := Double.lit_0_0;
     size_ := size |}.

(** The initial value of [static int cycle]. *)
Definition cycle_init : Z := 0.

(** ** The methods *)

Definition sendmsg (a : TcpBbrAgent) : TcpBbrAgent :=
  set_pacing_rate a (Double.mul (pacing_gain_ a) (max_bandwidth_ a)).

Definition update_max_bandwidth (a : TcpBbrAgent) (delivered rtt : Double.double)
  : TcpBbrAgent :=
  let bw := Double.div delivered rtt in
  if Double.ltb (max_bandwidth_ a) bw then set_max_bandwidth a bw else a.

Definition update_min_rtt (a : TcpBbrAgent) (rtt : Double.double) : TcpBbrAgent :=
  if Double.ltb rtt (min_rtt_ a) then set_min_rtt a rtt else a.

(** [max_bandwidth_ > 0 && cwnd_ > 10 * size_]: the product is only
    evaluated when the left operand holds. *)
Definition bandwidth_growth_slows (a : TcpBbrAgent) : option bool :=
  if Double.ltb (Double.of_int 0) (max_bandwidth_ a)
  then t <- Int.mul 10 (size_ a) ;; Some (t <? cwnd_ a)
  else Some false.

Definition target_inflight (a : TcpBbrAgent) : option Z :=
  Int.of_double (Double.mul (max_bandwidth_ a) (min_rtt_ a)).

(** [cycle_gain] reads and writes the process-wide [cycle]; it returns the
    gain and the new value of [cycle].  ([%] is C++'s remainder; [cycle]
    stays within [0, 8), see [cycle_gain_range].) *)
Definition cycle_gain (cycle : Z) : Double.double * Z :=
  let cycle := Z.rem (cycle + 1) 8 in
  (if cycle =? 0 then Double.lit_1_25
   else if cycle =? 1 then Double.lit_0_75
   else Double.lit_1_0,
   cycle).

Definition time_to_probe_rtt (clock : Double.double) (a : TcpBbrAgent) : bool :=
  Double.ltb Double.lit_10_0 (Double.sub clock (t_last_rtt_probe_ a)).

Definition rtt_stable_for_long_enough (clock : Double.double) (a : TcpBbrAgent)
  : bool :=
  Double.ltb Double.lit_0_2 (Double.sub clock (t_state_start_ a)).

(** The first statements of [recv]: both estimators, then the stamp
    [if (state_ != PROBE_RTT) t_state_start_ = clock]. *)
Definition estimated (clock : Double.double) (a : TcpBbrAgent) (delivered : Z)
    (rtt : Double.double) : TcpBbrAgent :=
  let a := update_max_bandwidth a (Double.of_int delivered) rtt in
  let a := update_min_rtt a rtt in
  if BbrState_eqb (state_ a) PROBE_RTT then a else set_t_state_start a clock.

(** The [switch] of [recv]. *)
Definition state_machine (clock : Double.double) (cycle : Z) (a : TcpBbrAgent)
  : option (TcpBbrAgent * Z) :=
  match state_ a with
  | STARTUP =>
      b <- bandwidth_growth_slows a ;;
      Some (if b then set_t_state_start (set_state a DRAIN) clock else a, cycle)
  | DRAIN =>
      t <- target_inflight a ;;
      Some (if cwnd_ a <=? t
            then set_t_state_start (set_state a PROBE_BW) clock else a, cycle)
  | PROBE_BW =>
      let (g, cycle') := cycle_gain cycle in
      let a := set_pacing_gain a g in
      Some (if time_to_probe_rtt clock a
            then set_t_state_start
                   (set_t_last_rtt_probe (set_state a PROBE_RTT) clock) clock
            else a, cycle')
  | PROBE_RTT =>
      w <- Int.mul 4 (size_ a) ;;
      let a := set_cwnd a w in
      Some (if rtt_stable_for_long_enough clock a
            then set_t_state_start (set_state a PROBE_BW) clock else a, cycle)
  end.

(** The last two statements of [recv] before the call to the base class. *)
Definition update_cwnd (a : TcpBbrAgent) : option TcpBbrAgent :=
  w <- Int.of_double
         (Double.mul (cwnd_gain_ a)
            (Double.mul (max_bandwidth_ a) (min_rtt_ a))) ;;
  let a := set_cwnd a w in
  Some (if cwnd_ a <? size_ a then set_cwnd a (size_ a) else a).

(** [recv] once the sample has been read from the packet: [delivered] is
    the packet's size, [rtt] the clock minus the packet's timestamp.  The
    estimators and the time stamp, then the [switch], then the window. *)
Definition recv_sample (clock : Double.double) (cycle : Z) (a : TcpBbrAgent)
    (delivered : Z) (rtt : Double.double) : option (TcpBbrAgent * Z) :=
  r <- state_machine clock cycle (estimated clock a delivered rtt) ;;
  a' <- update_cwnd (fst r) ;;
  Some (a', snd r).

Record Packet : Type := mkPacket { ts : Double.double; size : Z }.

Definition recv (clock : Double.double) (cycle : Z) (a : TcpBbrAgent)
    (pkt : Packet) : option (TcpBbrAgent * Z) :=
  recv_sample clock cycle a (size pkt) (Double.sub clock (ts pkt)).

(** ** Event sequences *)

(** One delivery sample: the clock at the event, the bytes delivered and the
    measured round-trip time. *)
Record Sample : Type := mkSample {
  s_clock : Double.double;
  s_delivered : Z;
  s_rtt : Double.double
}.

Definition step (st : TcpBbrAgent * Z) (x : Sample) : option (TcpBbrAgent * Z) :=
  recv_sample (s_clock x) (snd st) (fst st) (s_delivered x) (s_rtt x).

Fixpoint run (st : TcpBbrAgent * Z) (xs : list Sample)
  : option (TcpBbrAgent * Z) :=
  match xs with
  | [] => Some st
  | x :: xs' => st' <- step st x ;; run st' xs'
  end.

(** A valid sample, in the spec's sense: a positive byte count and a
    positive round-trip time. *)
Definition valid_sample (x : Sample) : bool :=
  (0 <? s_delivered x) && Double.ltb Double.lit_0_0 (s_rtt x).

(** The state of a process that has just created one agent. *)
Definition fresh (size : Z) : TcpBbrAgent * Z := (new_TcpBbrAgent size, cycle_init).

(** ** The spec's reading of the window computation

    Rounding to the nearest integer (ties away from zero, as C's [round]),
    for comparison with the conversion the code performs. *)
Definition round_nearest (x : Double.double) : option Z :=
  match x with
  | S754_zero _ => Some 0
  | S754_finite s m e =>
      let v := match e with
               | Zneg k => Z.quot (2 * Zpos m + Z.pow_pos 2 k) (2 * Z.pow_pos 2 k)
               | _ => Zpos m * 2 ^ e
               end in
      Some (if s then - v else v)
  | S754_infinity _ | S754_nan => None
  end.

(** The gain of the [n]-th call of [cycle_gain] made in the process,
    counting from 1, whichever agent makes it. *)
Definition gain_of_call (n : Z) : Double.double :=
  if n mod 8 =? 0 then Double.lit_1_25
  else if n mod 8 =? 1 then Double.lit_0_75
  else Double.lit_1_0.

(** [n] successive calls of [cycle_gain]: the gains returned, in order, and
    the final value of [cycle]. *)
Fixpoint cycle_gains (n : nat) (cycle : Z) : list Double.double * Z :=
  match n with
  | O => ([], cycle)
  | S n' =>
      let (g, cycle') := cycle_gain cycle in
      let (gs, cycle'') := cycle_gains n' cycle' in
      (g :: gs, cycle'')
  end.

(** Two agents [A] and [B] in one process.  [cycle_gain] touches no field
    of the agent, so an interleaving of their calls is the list of callers;
    [gains_of who calls cycle] collects the gains returned to [who]. *)
Inductive Caller : Type := A | B.

Definition Caller_eqb (x y : Caller) : bool :=
  match x, y with
  | A, A | B, B => true
  | _, _ => false
  end.

Fixpoint gains_of (who : Caller) (calls : list Caller) (cycle : Z)
  : list Double.double :=
  match calls with
  | [] => []
  | c :: calls' =>
      let (g, cycle') := cycle_gain cycle in
      if Caller_eqb c who then g :: gains_of who calls' cycle'
      else gains_of who calls' cycle'
  end.

(** The same, with the number of calls made so far in the process. *)
Fixpoint gains_by_count (who : Caller) (calls : list Caller) (made : Z)
  : list Double.double :=
  match calls with
  | [] => []
  | c :: calls' =>
      if Caller_eqb c who
      then gain_of_call (made + 1) :: gains_by_count who calls' (made + 1)
      else gains_by_count who calls' (made + 1)
  end.

(** The estimates are not NaN (an estimator only stores a value that won
    a comparison, see [run_estimates_defined]). *)
Definition estimates_defined (a : TcpBbrAgent) : Prop :=
  Double.is_nan (max_bandwidth_ a) = false /\ Double.is_nan (min_rtt_ a) = false.

(** The gains of eight successive calls of [cycle_gain] from [cycle = 0],
    as the code returns them and as the spec lists them. *)
Definition code_cycle_pattern : list Double.double :=
  [ Double.lit_0_75; Double.lit_1_0; Double.lit_1_0; Double.lit_1_0;
    Double.lit_1_0; Double.lit_1_0; Double.lit_1_0; Double.lit_1_25 ].

Definition spec_cycle_pattern : list Double.double :=
  [ Double.lit_1_0; Double.lit_1_25; Double.lit_0_75; Double.lit_1_0;
    Double.lit_1_0; Double.lit_1_0; Double.lit_1_0; Double.lit_1_0 ].

(** The interleaving in which [who] makes no call at all. *)
Definition without (who : Caller) (calls : list Caller) : list Caller :=
  filter (fun c => negb (Caller_eqb c who)) calls.

(** Two agents in one process: each has its own fields, [cycle] is one
    variable.  An event is a delivery sample for one of the two. *)
Record Process : Type := mkProcess {
  agent_A : TcpBbrAgent;
  agent_B : TcpBbrAgent;
  cycle_ : Z
}.

Definition deliver (p : Process) (ev : Caller * Sample) : option Process :=
  let (who, x) := ev in
  match who with
  | A =>
      r <- recv_sample (s_clock x) (cycle_ p) (agent_A p)
             (s_delivered x) (s_rtt x) ;;
      Some (mkProcess (fst r) (agent_B p) (snd r))
  | B =>
      r <- recv_sample (s_clock x) (cycle_ p) (agent_B p)
             (s_delivered x) (s_rtt x) ;;
      Some (mkProcess (agent_A p) (fst r) (snd r))
  end.

Fixpoint deliveries (p : Process) (evs : list (Caller * Sample))
  : option Process :=
  match evs with
  | [] => Some p
  | ev :: evs' => p' <- deliver p ev ;; deliveries p' evs'
  end.

(** ** Inputs of the scenarios *)

Module Scenario.

(** The double nearest to 0.05, as the literal [0.05] denotes it. *)
Definition rtt_0_05 : Double.double :=
  Eval vm_compute in Double.div (Double.of_int 1) (Double.of_int 20).

Definition seconds (n : Z) : Double.double := Double.of_int n.

(** Three samples that take a fresh agent through STARTUP and DRAIN into
    PROBE_BW, with a round-trip time of one second throughout. *)
Definition to_probe_bw : list Sample :=
  [ mkSample (seconds 1) 10000 (seconds 1);
    mkSample (seconds 2) 10000 (seconds 1);
    mkSample (seconds 3) 20000 (seconds 1) ].

(** The agent after [to_probe_bw], and a process with two such agents. *)
Definition in_probe_bw : TcpBbrAgent :=
  Eval vm_compute in
    match run (fresh 1000) to_probe_bw with
    | Some st => fst st
    | None => new_TcpBbrAgent 1000
    end.

Definition two_in_probe_bw : Process := mkProcess in_probe_bw in_probe_bw cycle_init.

(** A sample at time 4, well before the next probe of the round-trip
    time is due. *)
Definition cruise : Sample := mkSample (seconds 4) 20000 (seconds 1).

(** A fourth sample more than ten seconds after the last probe (time 0). *)
Definition probe_rtt_entry : Sample := mkSample (seconds 11) 20000 (seconds 1).

(** The agents a fresh one becomes after one, two and four of these
    samples: still in STARTUP, in DRAIN, and in PROBE_RTT. *)
Definition in_startup : TcpBbrAgent :=
  Eval vm_compute in
    match run (fresh 1000) (firstn 1 to_probe_bw) with
    | Some st => fst st
    | None => new_TcpBbrAgent 1000
    end.

Definition in_drain : TcpBbrAgent :=
  Eval vm_compute in
    match run (fresh 1000) (firstn 2 to_probe_bw) with
    | Some st => fst st
    | None => new_TcpBbrAgent 1000
    end.

Definition in_probe_rtt : TcpBbrAgent :=
  Eval vm_compute in
    match run (fresh 1000) (to_probe_bw ++ [probe_rtt_entry]) with
    | Some st => fst st
    | None => new_TcpBbrAgent 1000
    end.

(** A fifth sample an eighth of a second later: PROBE_RTT is not over. *)
Definition probe_rtt_stay : Sample :=
  mkSample (Double.div (Double.of_int 89) (Double.of_int 8)) 20000 (seconds 1).

Definition into_probe_rtt : list Sample :=
  to_probe_bw ++ [probe_rtt_entry; probe_rtt_stay].

(** Two samples after which [2.0 * (max_bandwidth_ * min_rtt_)] is
    1500.75: a bandwidth of 6003 / 8 and a minimal round-trip time of 1. *)
Definition fractional_window : list Sample :=
  [ mkSample (seconds 1) 6003 (seconds 8);
    mkSample (seconds 2) 1 (seconds 1) ].

End Scenario.

(** ** Further notions used to state what the code keeps *)

(** The arrows of the [switch]: each phase and the one it can move to. *)
Definition phase_step (p q : BbrState) : bool :=
  match p, q with
  | STARTUP, (STARTUP | DRAIN)
  | DRAIN, (DRAIN | PROBE_BW)
  | PROBE_BW, (PROBE_BW | PROBE_RTT)
  | PROBE_RTT, (PROBE_RTT | PROBE_BW) => true
  | _, _ => false
  end.

(** How far along the phases an agent is; the two probing phases
    alternate and share a rank. *)
Definition phase_rank (p : BbrState) : Z :=
  match p with
  | STARTUP => 0
  | DRAIN => 1
  | PROBE_BW | PROBE_RTT => 2
  end.

(** The rate [update_max_bandwidth] computes for a sample. *)
Definition sample_rate (x : Sample) : Double.double :=
  Double.div (Double.of_int (s_delivered x)) (s_rtt x).

(** The three values [cycle_gain] can return. *)
Definition is_cycle_gain (g : Double.double) : Prop :=
  g = Double.lit_0_75 \/ g = Double.lit_1_0 \/ g = Double.lit_1_25.

(** A double that is a zero, carries the sign bit, or is a NaN. *)
Definition nonpos_or_nan (x : Double.double) : bool :=
  Double.zero_or_nan x || Double.signed true x.

(** A double that is neither infinite nor a NaN. *)
Definition is_finite (x : Double.double) : bool :=
  match x with
  | S754_zero _ | S754_finite _ _ _ => true
  | S754_infinity _ | S754_nan => false
  end.

(** The two calls an agent receives: a delivery sample for [recv], or a
    [sendmsg]. *)
Inductive Event : Type :=
  | Deliver (x : Sample)
  | Send.

Definition handle (st : TcpBbrAgent * Z) (ev : Event)
  : option (TcpBbrAgent * Z) :=
  match ev with
  | Deliver x => step st x
  | Send => Some (sendmsg (fst st), snd st)
  end.

Fixpoint handle_all (st : TcpBbrAgent * Z) (evs : list Event)
  : option (TcpBbrAgent * Z) :=
  match evs with
  | [] => Some st
  | ev :: evs' => st' <- handle st ev ;; handle_all st' evs'
  end.

(** The samples of a sequence of calls, in order. *)
Fixpoint samples_of (evs : list Event) : list Sample :=
  match evs with
  | [] => []
  | Deliver x :: evs' => x :: samples_of evs'
  | Send :: evs' => samples_of evs'
  end.

(** * Facts about doubles *)

Module DoubleFacts.
Import Double.

Lemma lit_1_0_exact : lit_1_0 = of_int 1.
Proof. reflexivity. Qed.

Lemma lit_2_0_exact : lit_2_0 = of_int 2.
Proof. reflexivity. Qed.

Lemma lit_10_0_exact : lit_10_0 = of_int 10.
Proof. reflexivity. Qed.

Lemma lit_1e9_exact : lit_1e9 = of_int 1000000000.
Proof. vm_compute. reflexivity. Qed.

Lemma lit_1_25_exact : lit_1_25 = div (of_int 5) (of_int 4).
Proof. vm_compute. reflexivity. Qed.

Lemma lit_0_75_exact : lit_0_75 = div (of_int 3) (of_int 4).
Proof. vm_compute. reflexivity. Qed.

Lemma lit_0_2_nearest : lit_0_2 = div (of_int 1) (of_int 5).
Proof. vm_compute. reflexivity. Qed.

(** [lit_0_2] is [m * 2 ^ (-55)] with [|5 * m - 2 ^ 55| <= 5 / 2]: no
    double is nearer to one fifth.  Likewise for the 0.05 of the scenarios
    and one twentieth. *)
Lemma lit_0_2_error :
  lit_0_2 = S754_finite false 7205759403792794 (-55) /\
  2 * Z.abs (5 * 7205759403792794 - 2 ^ 55) <= 5.
Proof. split; [reflexivity | vm_compute; discriminate]. Qed.

Lemma rtt_0_05_error :
  Scenario.rtt_0_05 = S754_finite false 7205759403792794 (-57) /\
  Z.abs (20 * 7205759403792794 - 2 ^ 57) <= 10.
Proof. split; [reflexivity | vm_compute; discriminate]. Qed.

Lemma compare_refl (x : double) :
  is_nan x = false -> SFcompare x x = Some Eq.
Proof.
  destruct x as [s | s | | s m e]; simpl; intros H;
    try discriminate; try reflexivity.
  - destruct s; reflexivity.
  - rewrite Z.compare_refl.
    change (Pos.compare_cont Eq m m) with (Pos.compare m m).
    rewrite Pos.compare_refl. destruct s; reflexivity.
Qed.

Lemma leb_refl (x : double) : is_nan x = false -> leb x x = true.
Proof.
  intros H. unfold leb, SFleb. rewrite (compare_refl x H). reflexivity.
Qed.

Lemma ltb_leb (x y : double) : ltb x y = true -> leb x y = true.
Proof.
  unfold ltb, leb, SFltb, SFleb.
  destruct (SFcompare x y) as [[ | | ] | ]; intros H;
    try discriminate; reflexivity.
Qed.

Lemma ltb_not_nan (x y : double) :
  ltb x y = true -> is_nan x = false /\ is_nan y = false.
Proof.
  unfold ltb, SFltb.
  destruct x, y; simpl; intros H; try discriminate; split; reflexivity.
Qed.

Lemma binary_round_aux_signed (s : bool) (m e : Z) (l : location) :
  signed s (binary_round_aux prec emax s m e l) = true.
Proof.
  unfold binary_round_aux.
  destruct (shr_fexp prec emax m e l) as [mrs' e'].
  destruct (shr_fexp prec emax _ e' loc_Exact) as [mrs'' e''].
  destruct (shr_m mrs'') as [ | p | p ]; simpl.
  - apply Bool.eqb_reflx.
  - destruct (Z.leb e'' _); simpl; apply Bool.eqb_reflx.
  - reflexivity.
Qed.

Lemma of_int_neg_signed (z : Z) : z < 0 -> signed true (of_int z) = true.
Proof.
  intros H. destruct z as [ | p | p ]; try lia.
  unfold of_int, binary_normalize, binary_round.
  destruct (shl_align p 0 _) as [mz ez].
  apply binary_round_aux_signed.
Qed.

Lemma of_int_pos_signed (z : Z) : 0 < z -> signed false (of_int z) = true.
Proof.
  intros H. destruct z as [ | p | p ]; try lia.
  unfold of_int, binary_normalize, binary_round.
  destruct (shl_align p 0 _) as [mz ez].
  apply binary_round_aux_signed.
Qed.

Lemma div_signed (sx sy : bool) (x y : double) :
  signed sx x = true -> signed sy y = true ->
  signed (xorb sx sy) (div x y) = true.
Proof.
  intros Hx Hy.
  destruct x as [s1 | s1 | | s1 m1 e1], y as [s2 | s2 | | s2 m2 e2];
    simpl in Hx, Hy; try reflexivity;
    try (apply Bool.eqb_prop in Hx; apply Bool.eqb_prop in Hy; subst;
         simpl; apply Bool.eqb_reflx).
  apply Bool.eqb_prop in Hx. apply Bool.eqb_prop in Hy. subst.
  unfold div, SFdiv.
  destruct (SFdiv_core_binary prec emax (Zpos m1) e1 (Zpos m2) e2)
    as [[mz ez] lz].
  apply binary_round_aux_signed.
Qed.

Lemma div_zero_l (s : bool) (y : double) :
  zero_or_nan (div (S754_zero s) y) = true.
Proof. destruct y; reflexivity. Qed.

(** A strictly positive double carries no sign bit; a strictly negative
    one carries it. *)
Lemma ltb_0_signed (x : double) : ltb lit_0_0 x = true -> signed false x = true.
Proof. destruct x as [s | [ | ] | | [ | ] m e]; simpl; intros H;
         try discriminate; reflexivity. Qed.

Lemma ltb_signed_0 (x : double) : ltb x lit_0_0 = true -> signed true x = true.
Proof. destruct x as [s | [ | ] | | [ | ] m e]; simpl; intros H;
         try discriminate; reflexivity. Qed.

(** Nothing that carries the sign bit, and no zero, is above a
    non-negative double. *)
Lemma ltb_nonneg_signed (x y : double) :
  leb lit_0_0 x = true -> signed true y = true -> ltb x y = false.
Proof.
  destruct x as [s1 | [ | ] | | [ | ] m1 e1],
           y as [s2 | [ | ] | | [ | ] m2 e2];
    simpl; intros Hx Hy; try discriminate; try reflexivity.
Qed.

Lemma ltb_nonneg_zero (x y : double) :
  leb lit_0_0 x = true -> zero_or_nan y = true -> ltb x y = false.
Proof.
  destruct x as [s1 | [ | ] | | [ | ] m1 e1],
           y as [s2 | [ | ] | | [ | ] m2 e2];
    simpl; intros Hx Hy; try discriminate; try reflexivity.
Qed.

End DoubleFacts.

(** * What one event changes *)

Section Frame.

Variables (clock : Double.double) (cycle : Z).

Lemma state_machine_frame (a a' : TcpBbrAgent) (cycle' : Z) :
  state_machine clock cycle a = Some (a', cycle') ->
  max_bandwidth_ a' = max_bandwidth_ a /\
  min_rtt_ a' = min_rtt_ a /\
  pacing_rate_ a' = pacing_rate_ a /\
  cwnd_gain_ a' = cwnd_gain_ a /\
  size_ a' = size_ a.
Proof.
  unfold state_machine. intros H.
  destruct (state_ a).
  - destruct (bandwidth_growth_slows a) as [[ | ] | ]; inversion H; subst;
      simpl; auto.
  - destruct (target_inflight a) as [t | ]; [ | discriminate].
    inversion H; subst. destruct (cwnd_ a <=? t); simpl; auto.
  - destruct (cycle_gain cycle) as [g c]. inversion H; subst.
    destruct (time_to_probe_rtt clock _); simpl; auto.
  - destruct (Int.mul 4 (size_ a)) as [w | ]; [ | discriminate].
    inversion H; subst.
    destruct (rtt_stable_for_long_enough clock _); simpl; auto.
Qed.

(** The unconditional recomputation: every event ends with the window
    [max (int) (cwnd_gain_ * (max_bandwidth_ * min_rtt_)) size_]. *)
Lemma update_cwnd_spec (a a' : TcpBbrAgent) :
  update_cwnd a = Some a' ->
  exists w,
    Int.of_double
      (Double.mul (cwnd_gain_ a)
         (Double.mul (max_bandwidth_ a) (min_rtt_ a))) = Some w /\
    a' = set_cwnd a (Z.max w (size_ a)).
Proof.
  unfold update_cwnd. intros H.
  destruct (Int.of_double _) as [w | ]; [ | discriminate].
  exists w. split; [reflexivity | ].
  inversion H; subst. simpl.
  destruct (Z.ltb_spec w (size_ a)).
  - rewrite Z.max_r by lia. reflexivity.
  - rewrite Z.max_l by lia. reflexivity.
Qed.

Lemma update_max_bandwidth_frame (a : TcpBbrAgent) (d r : Double.double) :
  let a1 := update_max_bandwidth a d r in
  min_rtt_ a1 = min_rtt_ a /\ pacing_rate_ a1 = pacing_rate_ a /\
  cwnd_gain_ a1 = cwnd_gain_ a /\ size_ a1 = size_ a /\
  state_ a1 = state_ a /\ cwnd_ a1 = cwnd_ a /\
  t_last_rtt_probe_ a1 = t_last_rtt_probe_ a.
Proof.
  unfold update_max_bandwidth.
  destruct (Double.ltb _ _); simpl; repeat split.
Qed.

Lemma update_min_rtt_frame (a : TcpBbrAgent) (r : Double.double) :
  let a1 := update_min_rtt a r in
  max_bandwidth_ a1 = max_bandwidth_ a /\ pacing_rate_ a1 = pacing_rate_ a /\
  cwnd_gain_ a1 = cwnd_gain_ a /\ size_ a1 = size_ a /\
  state_ a1 = state_ a /\ cwnd_ a1 = cwnd_ a /\
  t_last_rtt_probe_ a1 = t_last_rtt_probe_ a.
Proof.
  unfold update_min_rtt.
  destruct (Double.ltb _ _); simpl; repeat split.
Qed.

Lemma estimated_fields (a : TcpBbrAgent) (delivered : Z) (rtt : Double.double) :
  let a1 := estimated clock a delivered rtt in
  max_bandwidth_ a1 =
    max_bandwidth_ (update_max_bandwidth a (Double.of_int delivered) rtt) /\
  min_rtt_ a1 = min_rtt_ (update_min_rtt a rtt) /\
  pacing_rate_ a1 = pacing_rate_ a /\
  cwnd_gain_ a1 = cwnd_gain_ a /\ size_ a1 = size_ a /\
  state_ a1 = state_ a /\ cwnd_ a1 = cwnd_ a /\
  t_last_rtt_probe_ a1 = t_last_rtt_probe_ a.
Proof.
  unfold estimated.
  set (a0 := update_max_bandwidth a (Double.of_int delivered) rtt).
  destruct (update_max_bandwidth_frame a (Double.of_int delivered) rtt)
    as (Hm & Hp & Hg & Hs & Hst & Hc & Ht).
  fold a0 in Hm, Hp, Hg, Hs, Hst, Hc, Ht.
  destruct (update_min_rtt_frame a0 rtt) as (Hm' & Hp' & Hg' & Hs' & Hst' & Hc' & Ht').
  assert (Hmin : min_rtt_ (update_min_rtt a0 rtt) = min_rtt_ (update_min_rtt a rtt)).
  { unfold update_min_rtt. rewrite Hm.
    destruct (Double.ltb rtt (min_rtt_ a)); simpl; auto. }
  destruct (BbrState_eqb _ PROBE_RTT); simpl; repeat split; congruence.
Qed.

Lemma recv_sample_unfold (a : TcpBbrAgent) (delivered : Z)
    (rtt : Double.double) :
  recv_sample clock cycle a delivered rtt =
  (r <- state_machine clock cycle (estimated clock a delivered rtt) ;;
   a' <- update_cwnd (fst r) ;; Some (a', snd r)).
Proof. reflexivity. Qed.

(** What [recv] leaves alone, what the estimators decide and what the
    window is when the event is over. *)
Lemma recv_sample_fields (a a' : TcpBbrAgent) (delivered : Z)
    (rtt : Double.double) (cycle' : Z) :
  recv_sample clock cycle a delivered rtt = Some (a', cycle') ->
  max_bandwidth_ a' =
    max_bandwidth_ (update_max_bandwidth a (Double.of_int delivered) rtt) /\
  min_rtt_ a' = min_rtt_ (update_min_rtt a rtt) /\
  pacing_rate_ a' = pacing_rate_ a /\
  cwnd_gain_ a' = cwnd_gain_ a /\
  size_ a' = size_ a /\
  exists w,
    Int.of_double
      (Double.mul (cwnd_gain_ a')
         (Double.mul (max_bandwidth_ a') (min_rtt_ a'))) = Some w /\
    cwnd_ a' = Z.max w (size_ a').
Proof.
  rewrite recv_sample_unfold. intros H.
  destruct (estimated_fields a delivered rtt)
    as (Hm & Hr & Hp & Hg & Hs & _).
  destruct (state_machine clock cycle _) as [[a1 c1] | ] eqn:Hsm;
    [ | discriminate].
  simpl in H.
  destruct (update_cwnd a1) as [a2 | ] eqn:Hc; [ | discriminate].
  inversion H; subst a2 cycle'; clear H.
  destruct (state_machine_frame _ _ _ Hsm) as (Hm1 & Hr1 & Hp1 & Hg1 & Hs1).
  destruct (update_cwnd_spec _ _ Hc) as (w & Hw & ->).
  simpl. repeat split; try congruence.
  exists w. split; [exact Hw | reflexivity].
Qed.

(** [recv] completes unless an [int] is out of range: the two products by
    the segment size and the two conversions of a [double]. *)
Lemma recv_sample_returns (a : TcpBbrAgent) (delivered : Z)
    (rtt : Double.double) (t w : Z) :
  Int.in_range (10 * size_ a) = true ->
  Int.in_range (4 * size_ a) = true ->
  target_inflight (estimated clock a delivered rtt) = Some t ->
  Int.of_double
    (Double.mul (cwnd_gain_ a)
       (Double.mul (max_bandwidth_ (estimated clock a delivered rtt))
          (min_rtt_ (estimated clock a delivered rtt)))) = Some w ->
  exists a' cycle',
    recv_sample clock cycle a delivered rtt = Some (a', cycle') /\
    cwnd_ a' = Z.max w (size_ a).
Proof.
  intros H10 H4 Ht Hw. unfold recv_sample.
  destruct (estimated_fields a delivered rtt)
    as (_ & _ & _ & Hg1 & Hs1 & _).
  set (a1 := estimated clock a delivered rtt) in *.
  assert (Hsm : exists a2 c2, state_machine clock cycle a1 = Some (a2, c2)).
  { unfold state_machine. destruct (state_ a1).
    - unfold bandwidth_growth_slows.
      destruct (Double.ltb _ _); [ | eauto].
      unfold Int.mul, Int.checked. rewrite Hs1, H10. eauto.
    - rewrite Ht. eauto.
    - destruct (cycle_gain cycle). eauto.
    - unfold Int.mul, Int.checked. rewrite Hs1, H4. eauto. }
  destruct Hsm as (a2 & c2 & Hsm). rewrite Hsm. simpl fst. simpl snd.
  destruct (state_machine_frame _ _ _ Hsm) as (Hb & Hr & _ & Hg & Hs).
  destruct (update_cwnd a2) as [a3 | ] eqn:Hc.
  - destruct (update_cwnd_spec _ _ Hc) as (w' & Hw' & ->).
    rewrite Hb, Hr, Hg, Hg1, Hw in Hw'. inversion Hw'; subst w'.
    exists (set_cwnd a2 (Z.max w (size_ a2))), c2.
    split; [reflexivity | ]. simpl. rewrite Hs, Hs1. reflexivity.
  - unfold update_cwnd in Hc. rewrite Hb, Hr, Hg, Hg1, Hw in Hc. discriminate.
Qed.

End Frame.

(** * Runs *)

Lemma run_app (st : TcpBbrAgent * Z) (xs ys : list Sample) :
  run st (xs ++ ys) = (st' <- run st xs ;; run st' ys).
Proof.
  revert st. induction xs as [ | x xs IH]; intros st; simpl.
  - reflexivity.
  - destruct (step st x) as [st1 | ]; [apply IH | reflexivity].
Qed.

Lemma step_fields (st st' : TcpBbrAgent * Z) (x : Sample) :
  step st x = Some st' ->
  max_bandwidth_ (fst st') =
    max_bandwidth_
      (update_max_bandwidth (fst st) (Double.of_int (s_delivered x)) (s_rtt x)) /\
  min_rtt_ (fst st') = min_rtt_ (update_min_rtt (fst st) (s_rtt x)) /\
  pacing_rate_ (fst st') = pacing_rate_ (fst st) /\
  cwnd_gain_ (fst st') = cwnd_gain_ (fst st) /\
  size_ (fst st') = size_ (fst st) /\
  exists w,
    Int.of_double
      (Double.mul (cwnd_gain_ (fst st'))
         (Double.mul (max_bandwidth_ (fst st')) (min_rtt_ (fst st')))) = Some w /\
    cwnd_ (fst st') = Z.max w (size_ (fst st')).
Proof.
  destruct st' as [a' c']. unfold step. apply recv_sample_fields.
Qed.

(** [recv] never writes [cwnd_gain_], [size_] or [pacing_rate_]. *)
Lemma run_constants (xs : list Sample) :
  forall st st', run st xs = Some st' ->
  cwnd_gain_ (fst st') = cwnd_gain_ (fst st) /\
  size_ (fst st') = size_ (fst st) /\
  pacing_rate_ (fst st') = pacing_rate_ (fst st).
Proof.
  induction xs as [ | x xs IH]; simpl; intros st st' H.
  - inversion H; subst. auto.
  - destruct (step st x) as [st1 | ] eqn:Hs; [ | discriminate].
    destruct (step_fields _ _ _ Hs) as (_ & _ & Hp & Hg & Hz & _).
    destruct (IH _ _ H) as (Hg' & Hz' & Hp').
    repeat split; congruence.
Qed.

Lemma step_estimates_defined (st st' : TcpBbrAgent * Z) (x : Sample) :
  step st x = Some st' ->
  estimates_defined (fst st) -> estimates_defined (fst st').
Proof.
  intros Hs [Hb Hr].
  destruct (step_fields _ _ _ Hs) as (Hb' & Hr' & _).
  unfold estimates_defined. rewrite Hb', Hr'.
  unfold update_max_bandwidth, update_min_rtt. split.
  - destruct (Double.ltb (max_bandwidth_ (fst st)) _) eqn:E; simpl.
    + apply (DoubleFacts.ltb_not_nan _ _ E).
    + exact Hb.
  - destruct (Double.ltb (s_rtt x) _) eqn:E; simpl.
    + apply (DoubleFacts.ltb_not_nan _ _ E).
    + exact Hr.
Qed.

Lemma run_estimates_defined (xs : list Sample) :
  forall st st', run st xs = Some st' ->
  estimates_defined (fst st) -> estimates_defined (fst st').
Proof.
  induction xs as [ | x xs IH]; simpl; intros st st' H Hd.
  - inversion H; subst. exact Hd.
  - destruct (step st x) as [st1 | ] eqn:Hs; [ | discriminate].
    apply (IH _ _ H). apply (step_estimates_defined _ _ _ Hs Hd).
Qed.

Lemma fresh_estimates_defined (size : Z) : estimates_defined (fst (fresh size)).
Proof. split; reflexivity. Qed.

(** One event moves [max_bandwidth_] up and [min_rtt_] down, or leaves
    them, whatever the sample is. *)
Lemma step_monotone (st st' : TcpBbrAgent * Z) (x : Sample) :
  estimates_defined (fst st) ->
  step st x = Some st' ->
  Double.leb (max_bandwidth_ (fst st)) (max_bandwidth_ (fst st')) = true /\
  Double.leb (min_rtt_ (fst st')) (min_rtt_ (fst st)) = true.
Proof.
  intros [Hb Hr] Hs.
  destruct (step_fields _ _ _ Hs) as (Hb' & Hr' & _).
  rewrite Hb', Hr'. unfold update_max_bandwidth, update_min_rtt. split.
  - destruct (Double.ltb (max_bandwidth_ (fst st)) _) eqn:E; simpl.
    + apply DoubleFacts.ltb_leb, E.
    + apply DoubleFacts.leb_refl, Hb.
  - destruct (Double.ltb (s_rtt x) _) eqn:E; simpl.
    + apply DoubleFacts.ltb_leb, E.
    + apply DoubleFacts.leb_refl, Hr.
Qed.

(** * The estimators *)

(** C5. Along every sequence of valid delivery samples processed by a
    fresh agent, each further valid sample leaves [max_bandwidth_] greater
    than or equal to its value before the call and [min_rtt_] less than or
    equal to its value before the call. *)
Theorem estimates_monotone (size : Z) (xs : list Sample) (x : Sample)
    (st st' : TcpBbrAgent * Z) :
  forallb valid_sample xs = true ->
  valid_sample x = true ->
  run (fresh size) xs = Some st ->
  step st x = Some st' ->
  Double.leb (max_bandwidth_ (fst st)) (max_bandwidth_ (fst st')) = true /\
  Double.leb (min_rtt_ (fst st')) (min_rtt_ (fst st)) = true.
Proof.
  intros _ _ Hrun Hstep.
  apply (step_monotone st st' x); [ | exact Hstep].
  apply (run_estimates_defined xs _ _ Hrun), fresh_estimates_defined.
Qed.

Lemma estimates_monotone_witness :
  exists st st',
    run (fresh 1000) [mkSample (Scenario.seconds 1) 5000 Scenario.rtt_0_05] = Some st /\
    step st (mkSample (Scenario.seconds 2) 9000 Scenario.rtt_0_05) = Some st' /\
    max_bandwidth_ (fst st) = Double.of_int 100000 /\
    max_bandwidth_ (fst st') = Double.of_int 180000 /\
    Double.leb (max_bandwidth_ (fst st)) (max_bandwidth_ (fst st')) = true /\
    Double.leb (min_rtt_ (fst st')) (min_rtt_ (fst st)) = true.
Proof.
  eexists. eexists.
  split; [vm_compute; reflexivity | ].
  split; [vm_compute; reflexivity | ].
  split; [vm_compute; reflexivity | ].
  split; [vm_compute; reflexivity | ].
  apply (estimates_monotone 1000
           [mkSample (Scenario.seconds 1) 5000 Scenario.rtt_0_05]
           (mkSample (Scenario.seconds 2) 9000 Scenario.rtt_0_05));
    vm_compute; reflexivity.
Defined.

(** * The window *)

(** Every event ends with a window of at least one segment. *)
Lemma recv_sample_floor (clock : Double.double) (cycle : Z) (a a' : TcpBbrAgent)
    (delivered : Z) (rtt : Double.double) (cycle' : Z) :
  recv_sample clock cycle a delivered rtt = Some (a', cycle') ->
  size_ a <= cwnd_ a'.
Proof.
  intros H.
  destruct (recv_sample_fields _ _ _ _ _ _ _ H)
    as (_ & _ & _ & _ & Hs & w & _ & Hw).
  rewrite Hw, Hs. apply Z.le_max_r.
Qed.

(** [trunc] is the conversion of C++: towards zero.  For a double
    [m * 2 ^ (- k)] it is the quotient of [m] by [2 ^ k]. *)
Lemma trunc_toward_zero (m k : positive) (w : Z) :
  Double.trunc (S754_finite false m (Zneg k)) = Some w ->
  w * 2 ^ Zpos k <= Zpos m < (w + 1) * 2 ^ Zpos k.
Proof.
  simpl. intros H. inversion H; subst; clear H.
  rewrite Z.pow_pos_fold.
  assert (Hp : 0 < 2 ^ Zpos k) by (apply Z.pow_pos_nonneg; lia).
  rewrite Z.quot_div_nonneg by lia.
  pose proof (Z.div_mod (Zpos m) (2 ^ Zpos k)) as Hd.
  pose proof (Z.mod_pos_bound (Zpos m) (2 ^ Zpos k) Hp) as Hb.
  nia.
Qed.

(** The first event of a new agent completes as soon as [10 * size_] fits an
    [int] and the doubled bandwidth-delay product of the updated estimates
    converts to [int]: the agent is in STARTUP, where nothing else can be
    out of range. *)
Lemma first_recv_returns (size : Z) (clock : Double.double) (delivered : Z)
    (rtt : Double.double) (w : Z) :
  Int.in_range (10 * size) = true ->
  Int.of_double
    (Double.mul Double.lit_2_0
       (Double.mul
          (max_bandwidth_
             (update_max_bandwidth (new_TcpBbrAgent size)
                (Double.of_int delivered) rtt))
          (min_rtt_ (update_min_rtt (new_TcpBbrAgent size) rtt)))) = Some w ->
  exists a' cycle',
    recv_sample clock cycle_init (new_TcpBbrAgent size) delivered rtt
      = Some (a', cycle') /\
    cwnd_ a' = Z.max w size.
Proof.
  intros H10 Hw. unfold recv_sample.
  destruct (estimated_fields clock (new_TcpBbrAgent size) delivered rtt)
    as (Hb1 & Hr1 & _ & Hg1 & Hs1 & Hst1 & _).
  set (a1 := estimated clock (new_TcpBbrAgent size) delivered rtt) in *.
  cbn [cwnd_gain_ size_ state_ new_TcpBbrAgent] in Hg1, Hs1, Hst1.
  assert (Hsm : exists a2 c2, state_machine clock cycle_init a1 = Some (a2, c2)).
  { unfold state_machine. rewrite Hst1. unfold bandwidth_growth_slows.
    destruct (Double.ltb _ _); [ | eauto].
    unfold Int.mul, Int.checked. rewrite Hs1, H10. eauto. }
  destruct Hsm as (a2 & c2 & Hsm). rewrite Hsm. cbn [fst snd].
  destruct (state_machine_frame _ _ _ _ _ Hsm) as (Hb & Hr & _ & Hg & Hs).
  destruct (update_cwnd a2) as [a3 | ] eqn:Hc.
  - destruct (update_cwnd_spec _ _ Hc) as (w' & Hw' & ->).
    rewrite Hb, Hr, Hg, Hg1, Hb1, Hr1, Hw in Hw'.
    assert (w' = w) by congruence. subst w'.
    exists (set_cwnd a2 (Z.max w (size_ a2))), c2.
    split; [reflexivity | ]. cbn [cwnd_ set_cwnd]. rewrite Hs, Hs1. reflexivity.
  - unfold update_cwnd in Hc.
    rewrite Hb, Hr, Hg, Hg1, Hb1, Hr1, Hw in Hc. discriminate.
Qed.

(** C10. A freshly constructed agent reports a window of 0, which is below
    the segment size, and a pacing rate of 0.0; the floor
    [cwnd_ >= size_] holds once a first sample has been processed: every
    first event that completes ends with a window of at least one segment,
    and a first event does complete, with the window
    [max w size] for the converted product [w], whenever [10 * size] fits
    an [int] and the doubled bandwidth-delay product of the updated
    estimates converts to [int]. *)
Theorem fresh_window_below_floor (size : Z) :
  0 < size ->
  cwnd_ (new_TcpBbrAgent size) = 0 /\
  cwnd_ (new_TcpBbrAgent size) < size_ (new_TcpBbrAgent size) /\
  pacing_rate_ (new_TcpBbrAgent size) = Double.lit_0_0 /\
  (forall clock delivered rtt a' cycle',
     recv_sample clock cycle_init (new_TcpBbrAgent size) delivered rtt
       = Some (a', cycle') ->
     size <= cwnd_ a') /\
  (forall clock delivered rtt w,
     Int.in_range (10 * size) = true ->
     Int.of_double
       (Double.mul Double.lit_2_0
          (Double.mul
             (max_bandwidth_
                (update_max_bandwidth (new_TcpBbrAgent size)
                   (Double.of_int delivered) rtt))
             (min_rtt_ (update_min_rtt (new_TcpBbrAgent size) rtt)))) = Some w ->
     exists a' cycle',
       recv_sample clock cycle_init (new_TcpBbrAgent size) delivered rtt
         = Some (a', cycle') /\
       cwnd_ a' = Z.max w size /\
       size <= cwnd_ a').
Proof.
  intros Hsize.
  split; [reflexivity | ]. split; [exact Hsize | ]. split; [reflexivity | ].
  split.
  - intros clock delivered rtt a' cycle' H.
    apply (recv_sample_floor _ _ _ _ _ _ _ H).
  - intros clock delivered rtt w H10 Hw.
    destruct (first_recv_returns size clock delivered rtt w H10 Hw)
      as (a' & cycle' & H & Hc).
    exists a', cycle'. split; [exact H | ]. split; [exact Hc | ].
    rewrite Hc. apply Z.le_max_r.
Qed.

Lemma fresh_window_below_floor_witness :
  cwnd_ (new_TcpBbrAgent 1000) = 0 /\
  cwnd_ (new_TcpBbrAgent 1000) < size_ (new_TcpBbrAgent 1000) /\
  pacing_rate_ (new_TcpBbrAgent 1000) = Double.lit_0_0 /\
  exists a' cycle',
    recv_sample (Scenario.seconds 1) cycle_init (new_TcpBbrAgent 1000)
      5000 Scenario.rtt_0_05 = Some (a', cycle') /\
    cwnd_ a' = Z.max 10000 1000 /\
    1000 <= cwnd_ a'.
Proof.
  destruct (fresh_window_below_floor 1000) as (H0 & Hlt & Hp & _ & Hfirst).
  - lia.
  - split; [exact H0 | ]. split; [exact Hlt | ]. split; [exact Hp | ].
    apply (Hfirst (Scenario.seconds 1) 5000 Scenario.rtt_0_05 10000).
    + vm_compute. reflexivity.
    + vm_compute. reflexivity.
Defined.

(** C7, as the spec words it, fails: after the two samples of
    [Scenario.fractional_window] the agent is in DRAIN, the product
    [2.0 * (max_bandwidth_ * min_rtt_)] is 1500.75, whose nearest integer
    is 1501, and the window is 1500. *)
Lemma window_not_rounded :
  exists a c,
    run (fresh 1000) Scenario.fractional_window = Some (a, c) /\
    state_ a = DRAIN /\
    round_nearest
      (Double.mul (cwnd_gain_ a) (Double.mul (max_bandwidth_ a) (min_rtt_ a)))
      = Some 1501 /\
    cwnd_ a = 1500 /\
    cwnd_ a <> Z.max 1501 (size_ a).
Proof.
  eexists. eexists.
  split; [vm_compute; reflexivity | ].
  split; [reflexivity | ].
  split; [vm_compute; reflexivity | ].
  split; [reflexivity | ].
  vm_compute. discriminate.
Qed.

(** C7, amended. After every delivery sample processed by an agent that
    started fresh, the window is the product
    [2.0 * (max_bandwidth_ * min_rtt_)] of the updated estimates converted
    to [int], that is truncated towards zero, and then raised to the
    segment size when it is below it. *)
Theorem window_truncated (size : Z) (xs : list Sample) (x : Sample)
    (st st' : TcpBbrAgent * Z) :
  run (fresh size) xs = Some st ->
  step st x = Some st' ->
  exists w,
    Int.of_double
      (Double.mul Double.lit_2_0
         (Double.mul (max_bandwidth_ (fst st')) (min_rtt_ (fst st')))) = Some w /\
    cwnd_ (fst st') = Z.max w size.
Proof.
  intros Hrun Hstep.
  destruct (run_constants _ _ _ Hrun) as (Hg & Hs & _).
  destruct (step_fields _ _ _ Hstep) as (_ & _ & _ & Hg' & Hs' & w & Hw & Hc).
  exists w. rewrite Hg', Hg in Hw. rewrite Hs', Hs in Hc.
  split; [exact Hw | exact Hc].
Qed.

Lemma window_truncated_witness :
  exists st st',
    run (fresh 1000) [mkSample (Scenario.seconds 1) 6003 (Scenario.seconds 8)]
      = Some st /\
    step st (mkSample (Scenario.seconds 2) 1 (Scenario.seconds 1)) = Some st' /\
    exists w,
      Int.of_double
        (Double.mul Double.lit_2_0
           (Double.mul (max_bandwidth_ (fst st')) (min_rtt_ (fst st')))) = Some w /\
      cwnd_ (fst st') = Z.max w 1000.
Proof.
  eexists. eexists.
  split; [vm_compute; reflexivity | ].
  split; [vm_compute; reflexivity | ].
  eapply (window_truncated 1000
            [mkSample (Scenario.seconds 1) 6003 (Scenario.seconds 8)]
            (mkSample (Scenario.seconds 2) 1 (Scenario.seconds 1))).
  - vm_compute. reflexivity.
  - vm_compute. reflexivity.
Defined.

(** * The pacing rate *)

(** C3, as the spec words it, fails: [recv] does not assign
    [pacing_rate_].  After the first sample of a fresh agent the gain is
    1.0 and the bandwidth 100000, and the published rate is still 0.0. *)
Lemma pacing_rate_stale_after_recv :
  exists a' c',
    recv_sample (Scenario.seconds 1) cycle_init (new_TcpBbrAgent 1000)
      5000 Scenario.rtt_0_05 = Some (a', c') /\
    Double.mul (pacing_gain_ a') (max_bandwidth_ a') = Double.of_int 100000 /\
    pacing_rate_ a' = Double.lit_0_0 /\
    pacing_rate_ a' <> Double.mul (pacing_gain_ a') (max_bandwidth_ a').
Proof.
  eexists. eexists.
  split; [vm_compute; reflexivity | ].
  split; [vm_compute; reflexivity | ].
  split; [reflexivity | ].
  vm_compute. discriminate.
Qed.

(** C3, amended. [recv] leaves the published pacing rate as it was; the
    rate is recomputed by [sendmsg], and after the [sendmsg] that follows a
    delivery sample it equals [pacing_gain_ * max_bandwidth_] of the
    updated state. *)
Theorem pacing_rate_set_by_sendmsg (clock : Double.double) (cycle : Z)
    (a a' : TcpBbrAgent) (delivered : Z) (rtt : Double.double) (cycle' : Z) :
  recv_sample clock cycle a delivered rtt = Some (a', cycle') ->
  pacing_rate_ a' = pacing_rate_ a /\
  pacing_rate_ (sendmsg a') = Double.mul (pacing_gain_ a') (max_bandwidth_ a') /\
  pacing_gain_ (sendmsg a') = pacing_gain_ a' /\
  max_bandwidth_ (sendmsg a') = max_bandwidth_ a'.
Proof.
  intros H.
  destruct (recv_sample_fields _ _ _ _ _ _ _ H) as (_ & _ & Hp & _).
  split; [exact Hp | ]. repeat split.
Qed.

Lemma pacing_rate_set_by_sendmsg_witness :
  exists a' c',
    recv_sample (Scenario.seconds 1) cycle_init (new_TcpBbrAgent 1000)
      5000 Scenario.rtt_0_05 = Some (a', c') /\
    pacing_rate_ a' = pacing_rate_ (new_TcpBbrAgent 1000) /\
    pacing_rate_ (sendmsg a') = Double.mul (pacing_gain_ a') (max_bandwidth_ a') /\
    pacing_gain_ (sendmsg a') = pacing_gain_ a' /\
    max_bandwidth_ (sendmsg a') = max_bandwidth_ a'.
Proof.
  eexists. eexists.
  split; [vm_compute; reflexivity | ].
  apply (pacing_rate_set_by_sendmsg (Scenario.seconds 1) cycle_init
           (new_TcpBbrAgent 1000) _ 5000 Scenario.rtt_0_05 0).
  vm_compute. reflexivity.
Defined.

(** C6, as the spec words it, fails on the pacing rate: after the single
    sample (5000 bytes, 0.05 s) the published rate is 0.0, not 100000. *)
Lemma scenario_A_rate_not_published :
  exists a' c',
    recv_sample (Scenario.seconds 1) cycle_init (new_TcpBbrAgent 1000)
      5000 Scenario.rtt_0_05 = Some (a', c') /\
    pacing_rate_ a' <> Double.of_int 100000.
Proof.
  eexists. eexists.
  split; [vm_compute; reflexivity | ].
  vm_compute. discriminate.
Qed.

(** C6, amended. For a fresh agent with a segment size of 1000, a single
    sample of 5000 bytes with a round-trip time of 0.05 s, at any time,
    gives [max_bandwidth_ = 100000] and [cwnd_ = 10000] in STARTUP with a
    pacing gain of 1.0; the published pacing rate is still 0.0, and the
    next [sendmsg] sets it to 100000. *)
Theorem scenario_A (clock : Double.double) :
  exists a',
    recv_sample clock cycle_init (new_TcpBbrAgent 1000) 5000 Scenario.rtt_0_05
      = Some (a', cycle_init) /\
    max_bandwidth_ a' = Double.of_int 100000 /\
    cwnd_ a' = 10000 /\
    state_ a' = STARTUP /\
    pacing_gain_ a' = Double.lit_1_0 /\
    pacing_rate_ a' = Double.lit_0_0 /\
    pacing_rate_ (sendmsg a') = Double.of_int 100000.
Proof.
  eexists.
  split; [vm_compute; reflexivity | ].
  repeat split; vm_compute; reflexivity.
Qed.

(** * Samples the spec calls invalid *)

(** A rate [delivered / rtt] whose operands have opposite signs, or whose
    numerator is zero, is not above a non-negative [max_bandwidth_]. *)
Lemma nonpositive_rate_not_above (m : Double.double) (delivered : Z)
    (rtt : Double.double) :
  Double.leb Double.lit_0_0 m = true ->
  (delivered <= 0 /\ Double.ltb Double.lit_0_0 rtt = true) \/
  (0 <= delivered /\ Double.ltb rtt Double.lit_0_0 = true) ->
  Double.ltb m (Double.div (Double.of_int delivered) rtt) = false.
Proof.
  intros Hm H.
  destruct (Z.eq_dec delivered 0) as [-> | Hne].
  - apply DoubleFacts.ltb_nonneg_zero; [exact Hm | ].
    change (Double.of_int 0) with (S754_zero false).
    apply DoubleFacts.div_zero_l.
  - apply DoubleFacts.ltb_nonneg_signed; [exact Hm | ].
    destruct H as [[Hd Hr] | [Hd Hr]].
    + change true with (xorb true false).
      apply DoubleFacts.div_signed.
      * apply DoubleFacts.of_int_neg_signed. lia.
      * apply DoubleFacts.ltb_0_signed, Hr.
    + change true with (xorb false true).
      apply DoubleFacts.div_signed.
      * apply DoubleFacts.of_int_pos_signed. lia.
      * apply DoubleFacts.ltb_signed_0, Hr.
Qed.

(** With a round-trip time of zero the division is carried out: the
    bandwidth estimate becomes infinite, and the window computation that
    follows converts a NaN to [int]. *)
Lemma zero_rtt_divided :
  max_bandwidth_
    (update_max_bandwidth (new_TcpBbrAgent 1000) (Double.of_int 5000)
       Double.lit_0_0) = S754_infinity false /\
  recv_sample (Scenario.seconds 1) cycle_init (new_TcpBbrAgent 1000)
    5000 Double.lit_0_0 = None.
Proof. split; vm_compute; reflexivity. Qed.

(** C1, as the spec words it, fails: [recv] has no check on the sample.  A
    sample of 0 bytes is processed like any other: on a fresh agent it
    lowers [min_rtt_] from 1e9 to the sample's round-trip time and sets the
    window, which was 0, to the segment size. *)
Lemma invalid_sample_not_rejected :
  exists a' c',
    recv_sample (Scenario.seconds 1) cycle_init (new_TcpBbrAgent 1000)
      0 Scenario.rtt_0_05 = Some (a', c') /\
    min_rtt_ a' = Scenario.rtt_0_05 /\
    min_rtt_ a' <> min_rtt_ (new_TcpBbrAgent 1000) /\
    cwnd_ a' = 1000 /\
    cwnd_ a' <> cwnd_ (new_TcpBbrAgent 1000).
Proof.
  eexists. eexists.
  split; [vm_compute; reflexivity | ].
  split; [reflexivity | ].
  split; [vm_compute; discriminate | ].
  split; [reflexivity | ].
  vm_compute. discriminate.
Qed.

(** C1, amended. [recv] reports nothing and divides whatever it is given.
    For a sample with [delivered <= 0] and [rtt > 0], or with
    [delivered >= 0] and [rtt < 0], on an agent whose [max_bandwidth_] is
    not negative, it leaves [max_bandwidth_] and [pacing_rate_] unchanged;
    [min_rtt_] becomes [rtt] when [rtt] is below it, and the window is
    recomputed from the updated [min_rtt_]. *)
Theorem recv_takes_invalid_sample (clock : Double.double) (cycle : Z)
    (a a' : TcpBbrAgent) (delivered : Z) (rtt : Double.double) (cycle' : Z) :
  Double.leb Double.lit_0_0 (max_bandwidth_ a) = true ->
  (delivered <= 0 /\ Double.ltb Double.lit_0_0 rtt = true) \/
  (0 <= delivered /\ Double.ltb rtt Double.lit_0_0 = true) ->
  recv_sample clock cycle a delivered rtt = Some (a', cycle') ->
  max_bandwidth_ a' = max_bandwidth_ a /\
  pacing_rate_ a' = pacing_rate_ a /\
  min_rtt_ a' = (if Double.ltb rtt (min_rtt_ a) then rtt else min_rtt_ a) /\
  exists w,
    Int.of_double
      (Double.mul (cwnd_gain_ a)
         (Double.mul (max_bandwidth_ a) (min_rtt_ a'))) = Some w /\
    cwnd_ a' = Z.max w (size_ a).
Proof.
  intros Hm Hs H.
  destruct (recv_sample_fields _ _ _ _ _ _ _ H)
    as (Hb & Hr & Hp & Hg & Hz & w & Hw & Hc).
  assert (Hb' : max_bandwidth_ a' = max_bandwidth_ a).
  { rewrite Hb. unfold update_max_bandwidth.
    rewrite (nonpositive_rate_not_above _ _ _ Hm Hs). reflexivity. }
  split; [exact Hb' | ]. split; [exact Hp | ]. split.
  - rewrite Hr. unfold update_min_rtt.
    destruct (Double.ltb rtt (min_rtt_ a)); reflexivity.
  - exists w. rewrite Hg, Hb' in Hw. rewrite Hz in Hc.
    split; [exact Hw | exact Hc].
Qed.

Lemma recv_takes_invalid_sample_witness :
  exists a' c',
    recv_sample (Scenario.seconds 1) cycle_init (new_TcpBbrAgent 1000)
      0 Scenario.rtt_0_05 = Some (a', c') /\
    max_bandwidth_ a' = Double.lit_0_0 /\
    pacing_rate_ a' = Double.lit_0_0 /\
    min_rtt_ a' = Scenario.rtt_0_05 /\
    exists w,
      Int.of_double
        (Double.mul Double.lit_2_0
           (Double.mul Double.lit_0_0 (min_rtt_ a'))) = Some w /\
      cwnd_ a' = Z.max w 1000.
Proof.
  eexists. eexists.
  split; [vm_compute; reflexivity | ].
  apply (recv_takes_invalid_sample (Scenario.seconds 1) cycle_init
           (new_TcpBbrAgent 1000) _ 0 Scenario.rtt_0_05 0).
  - reflexivity.
  - left. split; [lia | reflexivity].
  - vm_compute. reflexivity.
Defined.

(** * The phases *)

(** C2: the window in PROBE_RTT.  Five valid samples take a fresh agent
    with a segment size of 1000 into PROBE_RTT at the fourth and keep it
    there at the fifth.  The fifth runs the PROBE_RTT branch, whose
    assignment [cwnd_ = 4 * size_] is overwritten by the recomputation that
    ends [recv]: in both states the phase is PROBE_RTT and the window is
    40000, not 4000. *)
Theorem probe_rtt_window_overwritten :
  forallb valid_sample Scenario.into_probe_rtt = true /\
  exists a4 c4 a5 c5,
    run (fresh 1000) (Scenario.to_probe_bw ++ [Scenario.probe_rtt_entry])
      = Some (a4, c4) /\
    state_ a4 = PROBE_RTT /\ cwnd_ a4 = 40000 /\
    step (a4, c4) Scenario.probe_rtt_stay = Some (a5, c5) /\
    run (fresh 1000) Scenario.into_probe_rtt = Some (a5, c5) /\
    state_ a5 = PROBE_RTT /\ cwnd_ a5 = 40000 /\ 4 * size_ a5 = 4000.
Proof.
  split; [vm_compute; reflexivity | ].
  do 4 eexists.
  split; [vm_compute; reflexivity | ].
  split; [reflexivity | ].
  split; [reflexivity | ].
  split; [vm_compute; reflexivity | ].
  split; [vm_compute; reflexivity | ].
  repeat split.
Qed.

(** C8, as the spec words it, fails on the window: an agent in PROBE_BW
    whose last probe is more than ten seconds old moves to PROBE_RTT on the
    sample, and its window after that event is 40000, not 4 * 1000. *)
Lemma probe_rtt_entry_window :
  exists a c a' c',
    run (fresh 1000) Scenario.to_probe_bw = Some (a, c) /\
    state_ a = PROBE_BW /\
    Double.ltb Double.lit_10_0
      (Double.sub (s_clock Scenario.probe_rtt_entry) (t_last_rtt_probe_ a)) = true /\
    step (a, c) Scenario.probe_rtt_entry = Some (a', c') /\
    state_ a' = PROBE_RTT /\
    cwnd_ a' = 40000 /\
    cwnd_ a' <> 4 * size_ a'.
Proof.
  do 4 eexists.
  split; [vm_compute; reflexivity | ].
  split; [reflexivity | ].
  split; [vm_compute; reflexivity | ].
  split; [vm_compute; reflexivity | ].
  split; [reflexivity | ].
  split; [reflexivity | ].
  vm_compute. discriminate.
Qed.

(** C8, amended. If the agent is in PROBE_BW and a delivery sample arrives
    with [clock - t_last_rtt_probe_ > 10.0], then on that same call the
    phase becomes PROBE_RTT and both [t_last_rtt_probe_] and
    [t_state_start_] are set to the clock. *)
Theorem probe_bw_to_probe_rtt (clock : Double.double) (cycle : Z)
    (a a' : TcpBbrAgent) (delivered : Z) (rtt : Double.double) (cycle' : Z) :
  state_ a = PROBE_BW ->
  Double.ltb Double.lit_10_0 (Double.sub clock (t_last_rtt_probe_ a)) = true ->
  recv_sample clock cycle a delivered rtt = Some (a', cycle') ->
  state_ a' = PROBE_RTT /\
  t_last_rtt_probe_ a' = clock /\
  t_state_start_ a' = clock.
Proof.
  intros Hst Ht. rewrite recv_sample_unfold.
  destruct (estimated_fields clock a delivered rtt)
    as (_ & _ & _ & _ & _ & Hst1 & _ & Ht1).
  unfold state_machine. rewrite Hst1, Hst.
  destruct (cycle_gain cycle) as [g c1].
  unfold time_to_probe_rtt. simpl t_last_rtt_probe_ at 1.
  rewrite Ht1, Ht. simpl fst. simpl snd.
  intros H.
  destruct (update_cwnd _) as [a2 | ] eqn:Hc; [ | discriminate].
  inversion H; subst a2 cycle'; clear H.
  destruct (update_cwnd_spec _ _ Hc) as (w & _ & ->).
  repeat split.
Qed.

Lemma probe_bw_to_probe_rtt_witness :
  exists a c a' c',
    run (fresh 1000) Scenario.to_probe_bw = Some (a, c) /\
    step (a, c) Scenario.probe_rtt_entry = Some (a', c') /\
    state_ a' = PROBE_RTT /\
    t_last_rtt_probe_ a' = Scenario.seconds 11 /\
    t_state_start_ a' = Scenario.seconds 11.
Proof.
  do 4 eexists.
  split; [vm_compute; reflexivity | ].
  match goal with
  | |- step (?x, ?y) _ = _ /\ _ =>
      split; [vm_compute; reflexivity | ];
      eapply (probe_bw_to_probe_rtt (Scenario.seconds 11) y x _ 20000
                (Scenario.seconds 1))
  end.
  - reflexivity.
  - vm_compute. reflexivity.
  - vm_compute. reflexivity.
Defined.

(** * The gain cycle *)

(** [cycle] stays a remainder modulo 8: [cycle + 1] never overflows. *)
Lemma cycle_gain_range (cycle : Z) :
  0 <= cycle < 8 -> 0 <= snd (cycle_gain cycle) < 8.
Proof.
  intros H. unfold cycle_gain. simpl snd.
  rewrite Z.rem_mod_nonneg by lia.
  apply Z.mod_pos_bound. lia.
Qed.

Lemma cycle_gains_app (n m : nat) (cycle : Z) :
  cycle_gains (n + m) cycle =
  (let (g1, c1) := cycle_gains n cycle in
   let (g2, c2) := cycle_gains m c1 in
   (g1 ++ g2, c2)).
Proof.
  revert cycle. induction n as [ | n IH]; intros cycle.
  - simpl. destruct (cycle_gains m cycle). reflexivity.
  - change (S n + m)%nat with (S (n + m)).
    cbn [cycle_gains].
    destruct (cycle_gain cycle) as [g c]. rewrite IH.
    destruct (cycle_gains n c) as [g1 c1].
    destruct (cycle_gains m c1) as [g2 c2]. reflexivity.
Qed.

Lemma cycle_gains_block :
  cycle_gains 8 cycle_init = (code_cycle_pattern, cycle_init).
Proof. vm_compute. reflexivity. Qed.

Lemma cycle_gains_blocks (k : nat) :
  cycle_gains (8 * k) cycle_init =
  (concat (repeat code_cycle_pattern k), cycle_init).
Proof.
  induction k as [ | k IH].
  - reflexivity.
  - replace (8 * S k)%nat with (8 + 8 * k)%nat by lia.
    rewrite cycle_gains_app, cycle_gains_block, IH. reflexivity.
Qed.

(** C4, as the spec words it, fails: the first call from [cycle = 0] moves
    [cycle] to 1 and returns 0.75, not 1.0. *)
Lemma cycle_pattern_not_as_listed :
  fst (cycle_gains 8 cycle_init) <> spec_cycle_pattern /\
  fst (cycle_gain cycle_init) = Double.lit_0_75.
Proof. split; [vm_compute; discriminate | reflexivity]. Qed.

(** C4, amended. From [cycle = 0] the first 8 calls of [cycle_gain]
    return, in order, 0.75, 1.0, 1.0, 1.0, 1.0, 1.0, 1.0, 1.25, and the same
    8 gains repeat on every further block of 8 calls: [8 * k] calls return
    [k] copies of that sequence and leave [cycle] at 0. *)
Theorem cycle_pattern (k : nat) :
  fst (cycle_gains 8 cycle_init) = code_cycle_pattern /\
  cycle_gains (8 * k) cycle_init =
    (concat (repeat code_cycle_pattern k), cycle_init) /\
  cycle_gains 8 (snd (cycle_gains (8 * k) cycle_init)) =
    (code_cycle_pattern, cycle_init).
Proof.
  split; [rewrite cycle_gains_block; reflexivity | ].
  split; [apply cycle_gains_blocks | ].
  rewrite cycle_gains_blocks. apply cycle_gains_block.
Qed.

(** One call made when [made] calls have been made in the process. *)
Lemma cycle_gain_count (made : Z) :
  0 <= made ->
  cycle_gain (made mod 8) = (gain_of_call (made + 1), (made + 1) mod 8).
Proof.
  intros H. unfold cycle_gain, gain_of_call.
  assert (Hm : 0 <= made mod 8 < 8) by (apply Z.mod_pos_bound; lia).
  rewrite Z.rem_mod_nonneg by lia.
  rewrite Z.add_mod_idemp_l by lia. reflexivity.
Qed.

Lemma gains_of_count (who : Caller) (calls : list Caller) :
  forall made, 0 <= made ->
  gains_of who calls (made mod 8) = gains_by_count who calls made.
Proof.
  induction calls as [ | c calls IH]; intros made H; cbn [gains_of gains_by_count].
  - reflexivity.
  - rewrite (cycle_gain_count made H).
    rewrite (IH (made + 1)) by lia. reflexivity.
Qed.

(** C9, as the spec words it, fails: [cycle] is one variable for the whole
    process.  After seven calls by [B], the first call by [A] returns 1.25;
    had [B] made no call it would have returned 0.75. *)
Lemma cycle_shared_between_agents :
  gains_of A [B; B; B; B; B; B; B; A] cycle_init = [Double.lit_1_25] /\
  gains_of A (without B [B; B; B; B; B; B; B; A]) cycle_init = [Double.lit_0_75] /\
  gains_of A [B; B; B; B; B; B; B; A] cycle_init <>
  gains_of A (without B [B; B; B; B; B; B; B; A]) cycle_init.
Proof.
  split; [vm_compute; reflexivity | ].
  split; [vm_compute; reflexivity | ].
  vm_compute. discriminate.
Qed.

(** C9, amended. The probe-cycle index is shared by all agents of the
    process: in any interleaving of the calls of [A] and [B], the gain a
    call returns is fixed by how many calls of [cycle_gain] have been made
    in the process, by either agent: the [n]-th call returns 1.25 when
    [n mod 8 = 0], 0.75 when [n mod 8 = 1] and 1.0 otherwise. *)
Theorem gains_follow_process_count (who : Caller) (calls : list Caller) :
  gains_of who calls cycle_init = gains_by_count who calls 0.
Proof. apply (gains_of_count who calls 0). lia. Qed.

(** The same through [recv]: two agents in PROBE_BW, each sample at time 4.
    When its sample comes after seven samples of [B], [A] is given the
    gain 1.25; alone, it is given 0.75. *)
Lemma cycle_shared_through_recv :
  run (fresh 1000) Scenario.to_probe_bw = Some (Scenario.in_probe_bw, cycle_init) /\
  (exists p,
     deliveries Scenario.two_in_probe_bw
       (repeat (B, Scenario.cruise) 7 ++ [(A, Scenario.cruise)]) = Some p /\
     pacing_gain_ (agent_A p) = Double.lit_1_25) /\
  (exists p,
     deliveries Scenario.two_in_probe_bw [(A, Scenario.cruise)] = Some p /\
     pacing_gain_ (agent_A p) = Double.lit_0_75).
Proof.
  split; [vm_compute; reflexivity | ].
  split; eexists; (split; [vm_compute; reflexivity | reflexivity]).
Qed.

(** * More on the order of doubles *)

Module DoubleOrder.
Import Double.

Lemma compare_antisym (x y : double) (c : comparison) :
  SFcompare x y = Some c -> SFcompare y x = Some (CompOpp c).
Proof.
  destruct x as [s1 | s1 | | s1 m1 e1], y as [s2 | s2 | | s2 m2 e2];
    simpl; intros H; try discriminate;
    try (inversion H; subst; destruct s1; try destruct s2; reflexivity);
    try (inversion H; subst; destruct s2; reflexivity).
  inversion H; subst; clear H.
  rewrite (Z.compare_antisym e1 e2).
  change (Pos.compare_cont Eq m2 m1) with (Pos.compare m2 m1).
  change (Pos.compare_cont Eq m1 m2) with (Pos.compare m1 m2).
  rewrite (Pos.compare_antisym m1 m2).
  destruct s1, s2; try reflexivity;
    destruct (e1 ?= e2); simpl; try reflexivity;
    destruct (m1 ?= m2)%positive; reflexivity.
Qed.

(** Two doubles that are not NaN always compare. *)
Lemma compare_defined (x y : double) :
  is_nan x = false -> is_nan y = false -> exists c, SFcompare x y = Some c.
Proof.
  destruct x, y; simpl; intros Hx Hy; try discriminate; eauto.
Qed.

Lemma not_ltb_leb (x y : double) :
  is_nan x = false -> is_nan y = false -> ltb x y = false -> leb y x = true.
Proof.
  intros Hx Hy H. destruct (compare_defined x y Hx Hy) as [c Hc].
  unfold ltb, SFltb in H. unfold leb, SFleb.
  rewrite (compare_antisym _ _ _ Hc). rewrite Hc in H.
  destruct c; simpl; try reflexivity; discriminate.
Qed.

Lemma leb_not_nan (x y : double) :
  leb x y = true -> is_nan x = false /\ is_nan y = false.
Proof.
  unfold leb, SFleb.
  destruct x, y; simpl; intros H; try discriminate; split; reflexivity.
Qed.

(** The order on finite doubles of one sign is the order of the pairs
    (exponent, mantissa). *)
Lemma lex_le_trans (e1 e2 e3 : Z) (m1 m2 m3 : positive) :
  match (e1 ?= e2) with Lt => Lt | Gt => Gt | Eq => (m1 ?= m2)%positive end <> Gt ->
  match (e2 ?= e3) with Lt => Lt | Gt => Gt | Eq => (m2 ?= m3)%positive end <> Gt ->
  match (e1 ?= e3) with Lt => Lt | Gt => Gt | Eq => (m1 ?= m3)%positive end <> Gt.
Proof.
  destruct (Z.compare_spec e1 e2), (Z.compare_spec e2 e3),
    (Z.compare_spec e1 e3); subst; try lia; try congruence.
  destruct (Pos.compare_spec m1 m2), (Pos.compare_spec m2 m3),
    (Pos.compare_spec m1 m3); subst; try lia; congruence.
Qed.

Lemma leb_finite_pos (m1 m2 : positive) (e1 e2 : Z) :
  leb (S754_finite false m1 e1) (S754_finite false m2 e2) = true <->
  match (e1 ?= e2) with Lt => Lt | Gt => Gt | Eq => (m1 ?= m2)%positive end <> Gt.
Proof.
  unfold leb, SFleb. simpl.
  change (Pos.compare_cont Eq m1 m2) with (Pos.compare m1 m2).
  destruct (e1 ?= e2); [destruct (m1 ?= m2)%positive | | ];
    split; intros H; try reflexivity; try discriminate; congruence.
Qed.

Lemma leb_finite_neg (m1 m2 : positive) (e1 e2 : Z) :
  leb (S754_finite true m1 e1) (S754_finite true m2 e2) = true <->
  match (e2 ?= e1) with Lt => Lt | Gt => Gt | Eq => (m2 ?= m1)%positive end <> Gt.
Proof.
  unfold leb, SFleb. simpl.
  change (Pos.compare_cont Eq m1 m2) with (Pos.compare m1 m2).
  rewrite (Z.compare_antisym e1 e2), (Pos.compare_antisym m1 m2).
  destruct (e1 ?= e2); simpl; [destruct (m1 ?= m2)%positive | | ]; simpl;
    split; intros H; try reflexivity; try discriminate; congruence.
Qed.

Lemma leb_trans (x y z : double) :
  leb x y = true -> leb y z = true -> leb x z = true.
Proof.
  destruct x as [s1 | s1 | | s1 m1 e1], y as [s2 | s2 | | s2 m2 e2],
    z as [s3 | s3 | | s3 m3 e3];
    try (intros H1 H2; discriminate H1 || discriminate H2);
    try (destruct s1; try destruct s2; try destruct s3;
         intros H1 H2; (reflexivity || discriminate H1 || discriminate H2)).
  destruct s1, s2, s3; intros H1 H2;
    try reflexivity; try discriminate H1; try discriminate H2.
  - apply leb_finite_neg. apply leb_finite_neg in H1. apply leb_finite_neg in H2.
    apply (lex_le_trans e3 e2 e1 m3 m2 m1 H2 H1).
  - apply leb_finite_pos. apply leb_finite_pos in H1. apply leb_finite_pos in H2.
    apply (lex_le_trans e1 e2 e3 m1 m2 m3 H1 H2).
Qed.

End DoubleOrder.

(** * The phases, event by event *)

Lemma estimated_stamp (clock : Double.double) (a : TcpBbrAgent)
    (delivered : Z) (rtt : Double.double) :
  pacing_gain_ (estimated clock a delivered rtt) = pacing_gain_ a /\
  t_state_start_ (estimated clock a delivered rtt) =
    (if BbrState_eqb (state_ a) PROBE_RTT then t_state_start_ a else clock).
Proof.
  unfold estimated, update_max_bandwidth, update_min_rtt.
  destruct (Double.ltb (max_bandwidth_ a) _);
    cbn [min_rtt_ set_max_bandwidth];
    destruct (Double.ltb rtt (min_rtt_ a));
    cbn [state_ set_min_rtt set_max_bandwidth];
    destruct (state_ a); split; reflexivity.
Qed.

Lemma update_cwnd_frame (a a' : TcpBbrAgent) :
  update_cwnd a = Some a' ->
  state_ a' = state_ a /\ pacing_gain_ a' = pacing_gain_ a /\
  t_state_start_ a' = t_state_start_ a /\
  t_last_rtt_probe_ a' = t_last_rtt_probe_ a.
Proof.
  intros H. destruct (update_cwnd_spec _ _ H) as (w & _ & ->).
  repeat split.
Qed.

(** What one event does to the phase, the two time stamps, the gain and
    the process-wide [cycle], read on the agent before and after. *)
Lemma recv_sample_switch (clock : Double.double) (cycle : Z)
    (a a' : TcpBbrAgent) (delivered : Z) (rtt : Double.double) (cycle' : Z) :
  recv_sample clock cycle a delivered rtt = Some (a', cycle') ->
  match state_ a with
  | STARTUP =>
      exists b, bandwidth_growth_slows (estimated clock a delivered rtt) = Some b /\
      state_ a' = (if b then DRAIN else STARTUP) /\
      t_state_start_ a' = clock /\
      t_last_rtt_probe_ a' = t_last_rtt_probe_ a /\
      pacing_gain_ a' = pacing_gain_ a /\ cycle' = cycle
  | DRAIN =>
      exists t, target_inflight (estimated clock a delivered rtt) = Some t /\
      state_ a' = (if cwnd_ a <=? t then PROBE_BW else DRAIN) /\
      t_state_start_ a' = clock /\
      t_last_rtt_probe_ a' = t_last_rtt_probe_ a /\
      pacing_gain_ a' = pacing_gain_ a /\ cycle' = cycle
  | PROBE_BW =>
      let due :=
        Double.ltb Double.lit_10_0 (Double.sub clock (t_last_rtt_probe_ a)) in
      state_ a' = (if due then PROBE_RTT else PROBE_BW) /\
      t_state_start_ a' = clock /\
      t_last_rtt_probe_ a' = (if due then clock else t_last_rtt_probe_ a) /\
      pacing_gain_ a' = fst (cycle_gain cycle) /\
      cycle' = snd (cycle_gain cycle)
  | PROBE_RTT =>
      let over :=
        Double.ltb Double.lit_0_2 (Double.sub clock (t_state_start_ a)) in
      state_ a' = (if over then PROBE_BW else PROBE_RTT) /\
      t_state_start_ a' = (if over then clock else t_state_start_ a) /\
      t_last_rtt_probe_ a' = t_last_rtt_probe_ a /\
      pacing_gain_ a' = pacing_gain_ a /\ cycle' = cycle
  end.
Proof.
  unfold recv_sample. intros H.
  destruct (estimated_fields clock a delivered rtt)
    as (_ & _ & _ & _ & _ & Hst & Hcw & Htl).
  destruct (estimated_stamp clock a delivered rtt) as (Hpg & Hts).
  set (a1 := estimated clock a delivered rtt) in *.
  destruct (state_machine clock cycle a1) as [[a2 c2] | ] eqn:Hsm;
    [ | discriminate].
  cbn [fst snd] in H.
  destruct (update_cwnd a2) as [a3 | ] eqn:Hc; [ | discriminate].
  inversion H; subst a3 cycle'; clear H.
  destruct (update_cwnd_frame _ _ Hc) as (-> & -> & -> & ->).
  unfold state_machine in Hsm. rewrite Hst in Hsm.
  destruct (state_ a) eqn:Ea; cbn [BbrState_eqb] in Hts.
  - destruct (bandwidth_growth_slows a1) as [b | ]; [ | discriminate].
    exists b. injection Hsm as <- <-.
    split; [reflexivity | ].
    destruct b; cbn; rewrite ?Hst, ?Hts, ?Htl, ?Hpg; repeat split; congruence.
  - destruct (target_inflight a1) as [t | ]; [ | discriminate].
    exists t. injection Hsm as <- <-.
    split; [reflexivity | ]. rewrite <- Hcw.
    destruct (cwnd_ a1 <=? t); cbn; rewrite ?Hst, ?Hts, ?Htl, ?Hpg;
      repeat split; congruence.
  - destruct (cycle_gain cycle) as [g c1]. cbn [fst snd].
    unfold time_to_probe_rtt in Hsm. cbn [t_last_rtt_probe_ set_pacing_gain] in Hsm.
    rewrite Htl in Hsm. cbv zeta.
    destruct (Double.ltb Double.lit_10_0 _);
      injection Hsm as <- <-; cbn; rewrite ?Hst, ?Hts, ?Htl;
      repeat split; congruence.
  - destruct (Int.mul 4 (size_ a1)) as [w | ]; [ | discriminate].
    unfold rtt_stable_for_long_enough in Hsm.
    cbn [t_state_start_ set_cwnd] in Hsm. rewrite Hts in Hsm. cbv zeta.
    destruct (Double.ltb Double.lit_0_2 _);
      injection Hsm as <- <-; cbn; rewrite ?Hst, ?Hts, ?Htl, ?Hpg;
      repeat split; congruence.
Qed.

(** The phase after an event, against the phase before it. *)
Lemma recv_sample_phase_step (clock : Double.double) (cycle : Z)
    (a a' : TcpBbrAgent) (delivered : Z) (rtt : Double.double) (cycle' : Z) :
  recv_sample clock cycle a delivered rtt = Some (a', cycle') ->
  phase_step (state_ a) (state_ a') = true.
Proof.
  intros H. pose proof (recv_sample_switch _ _ _ _ _ _ _ H) as Hs.
  destruct (state_ a).
  - destruct Hs as ([ | ] & _ & -> & _); reflexivity.
  - destruct Hs as (t & _ & -> & _). destruct (cwnd_ a <=? t); reflexivity.
  - destruct Hs as (-> & _). destruct (Double.ltb _ _); reflexivity.
  - destruct Hs as (-> & _). destruct (Double.ltb _ _); reflexivity.
Qed.

(** X1. One event moves the agent along one arrow of the [switch] at most:
    STARTUP to DRAIN, DRAIN to PROBE_BW, PROBE_BW to PROBE_RTT and back. *)
Theorem phase_arrows (clock : Double.double) (cycle : Z)
    (a a' : TcpBbrAgent) (delivered : Z) (rtt : Double.double) (cycle' : Z) :
  recv_sample clock cycle a delivered rtt = Some (a', cycle') ->
  phase_step (state_ a) (state_ a') = true.
Proof. exact (recv_sample_phase_step clock cycle a a' delivered rtt cycle'). Qed.

Lemma phase_arrows_witness :
  exists a' c',
    recv_sample (Scenario.seconds 11) cycle_init Scenario.in_probe_bw
      20000 (Scenario.seconds 1) = Some (a', c') /\
    state_ a' = PROBE_RTT /\
    phase_step (state_ Scenario.in_probe_bw) (state_ a') = true.
Proof.
  do 2 eexists.
  split; [vm_compute; reflexivity | ].
  split; [reflexivity | ].
  eapply (phase_arrows (Scenario.seconds 11) cycle_init Scenario.in_probe_bw
            _ 20000 (Scenario.seconds 1)).
  vm_compute. reflexivity.
Defined.

Lemma phase_step_rank (p q : BbrState) :
  phase_step p q = true -> phase_rank p <= phase_rank q.
Proof. destruct p, q; simpl; intros H; try discriminate; lia. Qed.

(** X2. Along any sequence of events the agent never goes back: once out of
    STARTUP it does not return to it, and once it is probing (PROBE_BW or
    PROBE_RTT) it keeps probing. *)
Theorem phase_rank_monotone (xs : list Sample) (st st' : TcpBbrAgent * Z) :
  run st xs = Some st' ->
  phase_rank (state_ (fst st)) <= phase_rank (state_ (fst st')).
Proof.
  revert st. induction xs as [ | x xs IH]; simpl; intros st H.
  - inversion H; subst. lia.
  - destruct (step st x) as [[a1 c1] | ] eqn:Hs; [ | discriminate].
    specialize (IH _ H). unfold step in Hs.
    pose proof (phase_step_rank _ _ (recv_sample_phase_step _ _ _ _ _ _ _ Hs)).
    simpl in IH. lia.
Qed.

Lemma phase_rank_monotone_witness :
  exists st',
    run (fresh 1000) Scenario.into_probe_rtt = Some st' /\
    state_ (fst st') = PROBE_RTT /\
    phase_rank (state_ (fst (fresh 1000))) <= phase_rank (state_ (fst st')).
Proof.
  eexists.
  split; [vm_compute; reflexivity | ].
  split; [reflexivity | ].
  apply (phase_rank_monotone Scenario.into_probe_rtt (fresh 1000)).
  vm_compute. reflexivity.
Defined.

(** X3. [t_state_start_] is the time of the last event, not of the last
    change of phase: every event that finds the agent outside PROBE_RTT, or
    takes it out of PROBE_RTT, stamps it with the clock; it is kept only
    while the agent stays in PROBE_RTT. *)
Theorem start_time_stamped (clock : Double.double) (cycle : Z)
    (a a' : TcpBbrAgent) (delivered : Z) (rtt : Double.double) (cycle' : Z) :
  recv_sample clock cycle a delivered rtt = Some (a', cycle') ->
  (state_ a <> PROBE_RTT \/ state_ a' <> PROBE_RTT -> t_state_start_ a' = clock) /\
  (state_ a = PROBE_RTT -> state_ a' = PROBE_RTT ->
   t_state_start_ a' = t_state_start_ a).
Proof.
  intros H. pose proof (recv_sample_switch _ _ _ _ _ _ _ H) as Hs.
  destruct (state_ a).
  - destruct Hs as (b & _ & _ & Ht & _). split; [auto | discriminate].
  - destruct Hs as (t & _ & _ & Ht & _). split; [auto | discriminate].
  - destruct Hs as (_ & Ht & _). split; [auto | discriminate].
  - destruct Hs as (Hst & Ht & _). rewrite Hst, Ht.
    destruct (Double.ltb _ _); split; intros; try reflexivity;
      try discriminate.
    destruct H0 as [H0 | H0]; congruence.
Qed.

Lemma start_time_stamped_witness :
  exists a' c',
    recv_sample (Scenario.seconds 2) cycle_init (new_TcpBbrAgent 1000)
      5000 Scenario.rtt_0_05 = Some (a', c') /\
    state_ a' = STARTUP /\
    t_state_start_ a' = Scenario.seconds 2.
Proof.
  do 2 eexists.
  split; [vm_compute; reflexivity | ].
  split; [reflexivity | ].
  eapply (start_time_stamped (Scenario.seconds 2) cycle_init
            (new_TcpBbrAgent 1000) _ 5000 Scenario.rtt_0_05).
  - vm_compute. reflexivity.
  - left. discriminate.
Defined.

(** X4. [t_last_rtt_probe_] is written by one arrow only: it becomes the clock
    when the event takes the agent from PROBE_BW into PROBE_RTT, and is
    left alone by every other event. *)
Theorem last_probe_written_on_entry (clock : Double.double) (cycle : Z)
    (a a' : TcpBbrAgent) (delivered : Z) (rtt : Double.double) (cycle' : Z) :
  recv_sample clock cycle a delivered rtt = Some (a', cycle') ->
  t_last_rtt_probe_ a' =
    (if BbrState_eqb (state_ a) PROBE_BW && BbrState_eqb (state_ a') PROBE_RTT
     then clock else t_last_rtt_probe_ a).
Proof.
  intros H. pose proof (recv_sample_switch _ _ _ _ _ _ _ H) as Hs.
  destruct (state_ a).
  - destruct Hs as (b & _ & _ & _ & Ht & _). exact Ht.
  - destruct Hs as (t & _ & _ & _ & Ht & _). exact Ht.
  - destruct Hs as (Hst & _ & Ht & _). rewrite Hst, Ht.
    destruct (Double.ltb _ _); reflexivity.
  - destruct Hs as (_ & _ & Ht & _). exact Ht.
Qed.

Lemma last_probe_written_on_entry_witness :
  exists a' c',
    recv_sample (Scenario.seconds 4) cycle_init Scenario.in_probe_bw
      20000 (Scenario.seconds 1) = Some (a', c') /\
    state_ a' = PROBE_BW /\
    t_last_rtt_probe_ a' =
      (if BbrState_eqb (state_ Scenario.in_probe_bw) PROBE_BW
          && BbrState_eqb (state_ a') PROBE_RTT
       then Scenario.seconds 4 else t_last_rtt_probe_ Scenario.in_probe_bw).
Proof.
  do 2 eexists.
  split; [vm_compute; reflexivity | ].
  split; [reflexivity | ].
  apply (last_probe_written_on_entry (Scenario.seconds 4) cycle_init
           Scenario.in_probe_bw _ 20000 (Scenario.seconds 1) 1).
  vm_compute. reflexivity.
Defined.

(** * When each phase is left *)

(** The test of the STARTUP branch, on the fields before and after. *)
Lemma startup_exit_cases (clock : Double.double) (cycle : Z)
    (a a' : TcpBbrAgent) (delivered : Z) (rtt : Double.double) (cycle' : Z) :
  state_ a = STARTUP ->
  recv_sample clock cycle a delivered rtt = Some (a', cycle') ->
  (state_ a' = DRAIN <->
   Double.ltb Double.lit_0_0 (max_bandwidth_ a') = true /\
   10 * size_ a < cwnd_ a) /\
  (state_ a' = STARTUP \/ state_ a' = DRAIN).
Proof.
  intros Ha H.
  pose proof (recv_sample_switch _ _ _ _ _ _ _ H) as Hs. rewrite Ha in Hs.
  destruct Hs as (b & Hb & Hst & _).
  destruct (recv_sample_fields _ _ _ _ _ _ _ H) as (Hm & _).
  destruct (estimated_fields clock a delivered rtt)
    as (Hm1 & _ & _ & _ & Hz1 & _ & Hc1 & _).
  unfold bandwidth_growth_slows in Hb.
  rewrite Hm1, <- Hm, Hz1, Hc1 in Hb.
  change (Double.of_int 0) with Double.lit_0_0 in Hb.
  rewrite Hst.
  destruct (Double.ltb Double.lit_0_0 (max_bandwidth_ a')).
  - unfold Int.mul, Int.checked in Hb.
    destruct (Int.in_range (10 * size_ a)); [ | discriminate].
    assert (Eb : b = (10 * size_ a <? cwnd_ a)) by congruence.
    rewrite Eb. clear Hb Eb.
    destruct (Z.ltb_spec (10 * size_ a) (cwnd_ a)) as [Hlt | Hge].
    + split; [ | right; reflexivity].
      split; [intros _; split; [reflexivity | exact Hlt] | reflexivity].
    + split; [ | left; reflexivity].
      split; [discriminate | intros [_ Hlt]; lia].
  - injection Hb as <-. split; [ | left; reflexivity].
    split; [discriminate | intros [Hf _]; discriminate Hf].
Qed.

(** X5. STARTUP is left, for DRAIN, exactly when the bandwidth estimate updated
    by the sample is positive and the window left by the previous event
    exceeds ten segments: the test reads the old window. *)
Theorem startup_exit (clock : Double.double) (cycle : Z)
    (a a' : TcpBbrAgent) (delivered : Z) (rtt : Double.double) (cycle' : Z) :
  state_ a = STARTUP ->
  recv_sample clock cycle a delivered rtt = Some (a', cycle') ->
  (state_ a' = DRAIN <->
   Double.ltb Double.lit_0_0 (max_bandwidth_ a') = true /\
   10 * size_ a < cwnd_ a) /\
  (state_ a' = STARTUP \/ state_ a' = DRAIN).
Proof. exact (startup_exit_cases clock cycle a a' delivered rtt cycle'). Qed.

Lemma startup_exit_witness :
  exists a' c',
    recv_sample (Scenario.seconds 2) cycle_init Scenario.in_startup
      10000 (Scenario.seconds 1) = Some (a', c') /\
    state_ a' = DRAIN /\
    (state_ a' = DRAIN <->
     Double.ltb Double.lit_0_0 (max_bandwidth_ a') = true /\
     10 * size_ Scenario.in_startup < cwnd_ Scenario.in_startup).
Proof.
  do 2 eexists.
  split; [vm_compute; reflexivity | ].
  split; [reflexivity | ].
  apply (startup_exit (Scenario.seconds 2) cycle_init Scenario.in_startup _
           10000 (Scenario.seconds 1) cycle_init).
  - reflexivity.
  - vm_compute. reflexivity.
Defined.

(** X6. The first sample of a new agent never ends STARTUP, whatever it
    carries: the window it is tested against is the constructor's 0. *)
Theorem first_sample_stays_in_startup (size : Z) (clock : Double.double)
    (a' : TcpBbrAgent) (delivered : Z) (rtt : Double.double) (cycle' : Z) :
  0 <= size ->
  recv_sample clock cycle_init (new_TcpBbrAgent size) delivered rtt
    = Some (a', cycle') ->
  state_ a' = STARTUP /\ pacing_gain_ a' = Double.lit_1_0 /\
  cycle' = cycle_init.
Proof.
  intros Hz H.
  destruct (startup_exit_cases clock cycle_init (new_TcpBbrAgent size) a' delivered
              rtt cycle' eq_refl H) as (Hiff & Hor).
  pose proof (recv_sample_switch _ _ _ _ _ _ _ H) as Hs.
  cbn [state_ new_TcpBbrAgent] in Hs.
  destruct Hs as (b & _ & _ & _ & _ & Hg & Hc).
  split; [ | split; [exact Hg | exact Hc]].
  destruct Hor as [Hs | Hd]; [exact Hs | ].
  apply Hiff in Hd. destruct Hd as (_ & Hd).
  change (10 * size < 0) in Hd. lia.
Qed.

Lemma first_sample_stays_in_startup_witness :
  exists a' c',
    recv_sample (Scenario.seconds 1) cycle_init (new_TcpBbrAgent 1000)
      1000000 Scenario.rtt_0_05 = Some (a', c') /\
    cwnd_ a' = 2000000 /\
    state_ a' = STARTUP /\ pacing_gain_ a' = Double.lit_1_0 /\
    c' = cycle_init.
Proof.
  do 2 eexists.
  split; [vm_compute; reflexivity | ].
  split; [reflexivity | ].
  apply (first_sample_stays_in_startup 1000 (Scenario.seconds 1) _
           1000000 Scenario.rtt_0_05).
  - lia.
  - vm_compute. reflexivity.
Defined.

(** X7. DRAIN is left, for PROBE_BW, exactly when the window left by the
    previous event is at most the bandwidth-delay product of the updated
    estimates, converted to [int]. *)
Theorem drain_exit (clock : Double.double) (cycle : Z)
    (a a' : TcpBbrAgent) (delivered : Z) (rtt : Double.double) (cycle' : Z) :
  state_ a = DRAIN ->
  recv_sample clock cycle a delivered rtt = Some (a', cycle') ->
  exists t,
    Int.of_double (Double.mul (max_bandwidth_ a') (min_rtt_ a')) = Some t /\
    (state_ a' = PROBE_BW <-> cwnd_ a <= t) /\
    (state_ a' = DRAIN \/ state_ a' = PROBE_BW).
Proof.
  intros Ha H.
  pose proof (recv_sample_switch _ _ _ _ _ _ _ H) as Hs. rewrite Ha in Hs.
  destruct Hs as (t & Ht & Hst & _).
  destruct (recv_sample_fields _ _ _ _ _ _ _ H) as (Hm & Hr & _).
  destruct (estimated_fields clock a delivered rtt) as (Hm1 & Hr1 & _).
  unfold target_inflight in Ht. rewrite Hm1, Hr1, <- Hm, <- Hr in Ht.
  exists t. split; [exact Ht | ]. rewrite Hst.
  destruct (Z.leb_spec (cwnd_ a) t) as [Hle | Hgt].
  - split; [ | right; reflexivity].
    split; [intros _; exact Hle | reflexivity].
  - split; [ | left; reflexivity].
    split; [discriminate | intros Hle; lia].
Qed.

Lemma drain_exit_witness :
  exists a' c',
    recv_sample (Scenario.seconds 3) cycle_init Scenario.in_drain
      20000 (Scenario.seconds 1) = Some (a', c') /\
    state_ a' = PROBE_BW /\
    exists t,
      Int.of_double (Double.mul (max_bandwidth_ a') (min_rtt_ a')) = Some t /\
      (state_ a' = PROBE_BW <-> cwnd_ Scenario.in_drain <= t) /\
      (state_ a' = DRAIN \/ state_ a' = PROBE_BW).
Proof.
  do 2 eexists.
  split; [vm_compute; reflexivity | ].
  split; [reflexivity | ].
  apply (drain_exit (Scenario.seconds 3) cycle_init Scenario.in_drain _
           20000 (Scenario.seconds 1) cycle_init).
  - reflexivity.
  - vm_compute. reflexivity.
Defined.

(** X8. PROBE_RTT is left, for PROBE_BW, exactly when the clock is more than
    0.2 s past [t_state_start_], the time the agent entered PROBE_RTT. *)
Theorem probe_rtt_exit (clock : Double.double) (cycle : Z)
    (a a' : TcpBbrAgent) (delivered : Z) (rtt : Double.double) (cycle' : Z) :
  state_ a = PROBE_RTT ->
  recv_sample clock cycle a delivered rtt = Some (a', cycle') ->
  (state_ a' = PROBE_BW <->
   Double.ltb Double.lit_0_2 (Double.sub clock (t_state_start_ a)) = true) /\
  (state_ a' = PROBE_RTT \/ state_ a' = PROBE_BW).
Proof.
  intros Ha H.
  pose proof (recv_sample_switch _ _ _ _ _ _ _ H) as Hs. rewrite Ha in Hs.
  destruct Hs as (Hst & _). rewrite Hst.
  destruct (Double.ltb _ _).
  - split; [ | right; reflexivity]. split; reflexivity.
  - split; [ | left; reflexivity]. split; discriminate.
Qed.

Lemma probe_rtt_exit_witness :
  exists a' c',
    recv_sample (Scenario.seconds 12) 1 Scenario.in_probe_rtt
      20000 (Scenario.seconds 1) = Some (a', c') /\
    state_ a' = PROBE_BW /\
    (state_ a' = PROBE_BW <->
     Double.ltb Double.lit_0_2
       (Double.sub (Scenario.seconds 12) (t_state_start_ Scenario.in_probe_rtt))
     = true).
Proof.
  do 2 eexists.
  split; [vm_compute; reflexivity | ].
  split; [reflexivity | ].
  apply (probe_rtt_exit (Scenario.seconds 12) 1 Scenario.in_probe_rtt _
           20000 (Scenario.seconds 1) 1).
  - reflexivity.
  - vm_compute. reflexivity.
Defined.

(** The agents of the scenarios are reached from a fresh one. *)
Lemma scenario_agents_reached :
  run (fresh 1000) (firstn 1 Scenario.to_probe_bw)
    = Some (Scenario.in_startup, cycle_init) /\
  run (fresh 1000) (firstn 2 Scenario.to_probe_bw)
    = Some (Scenario.in_drain, cycle_init) /\
  run (fresh 1000) Scenario.to_probe_bw
    = Some (Scenario.in_probe_bw, cycle_init) /\
  run (fresh 1000) (Scenario.to_probe_bw ++ [Scenario.probe_rtt_entry])
    = Some (Scenario.in_probe_rtt, 1).
Proof. repeat split; vm_compute; reflexivity. Qed.

(** * The gain and the process-wide cycle, along a run *)

Lemma cycle_gain_is_cycle_gain (cycle : Z) : is_cycle_gain (fst (cycle_gain cycle)).
Proof.
  unfold cycle_gain, is_cycle_gain. cbn [fst].
  destruct (Z.rem (cycle + 1) 8 =? 0); [auto | ].
  destruct (Z.rem (cycle + 1) 8 =? 1); auto.
Qed.

(** X10. [cycle] moves only when an event finds the agent in PROBE_BW, the
    event that leaves PROBE_BW included: it then advances by one modulo 8.
    It therefore stays in [0, 8), and [cycle + 1] cannot overflow. *)
Theorem cycle_advances_in_probe_bw (clock : Double.double) (cycle : Z)
    (a a' : TcpBbrAgent) (delivered : Z) (rtt : Double.double) (cycle' : Z) :
  0 <= cycle < 8 ->
  recv_sample clock cycle a delivered rtt = Some (a', cycle') ->
  cycle' = (if BbrState_eqb (state_ a) PROBE_BW then (cycle + 1) mod 8 else cycle) /\
  0 <= cycle' < 8.
Proof.
  intros Hc H. pose proof (recv_sample_switch _ _ _ _ _ _ _ H) as Hs.
  destruct (state_ a); cbn [BbrState_eqb].
  - destruct Hs as (b & _ & _ & _ & _ & _ & ->). split; [reflexivity | exact Hc].
  - destruct Hs as (t & _ & _ & _ & _ & _ & ->). split; [reflexivity | exact Hc].
  - destruct Hs as (_ & _ & _ & _ & ->).
    pose proof (cycle_gain_range cycle Hc) as Hr.
    split; [ | exact Hr].
    unfold cycle_gain. cbn [snd]. apply Z.rem_mod_nonneg; lia.
  - destruct Hs as (_ & _ & _ & _ & ->). split; [reflexivity | exact Hc].
Qed.

Lemma cycle_advances_in_probe_bw_witness :
  exists a' c',
    recv_sample (Scenario.seconds 4) 7 Scenario.in_probe_bw
      20000 (Scenario.seconds 1) = Some (a', c') /\
    pacing_gain_ a' = Double.lit_1_25 /\
    c' = (if BbrState_eqb (state_ Scenario.in_probe_bw) PROBE_BW
          then (7 + 1) mod 8 else 7) /\
    0 <= c' < 8.
Proof.
  do 2 eexists.
  split; [vm_compute; reflexivity | ].
  split; [reflexivity | ].
  eapply (cycle_advances_in_probe_bw (Scenario.seconds 4) 7
            Scenario.in_probe_bw _ 20000 (Scenario.seconds 1)).
  - lia.
  - vm_compute. reflexivity.
Defined.

Lemma step_gain (st st' : TcpBbrAgent * Z) (x : Sample) :
  step st x = Some st' ->
  is_cycle_gain (pacing_gain_ (fst st)) /\
  (phase_rank (state_ (fst st)) < 2 -> pacing_gain_ (fst st) = Double.lit_1_0) ->
  is_cycle_gain (pacing_gain_ (fst st')) /\
  (phase_rank (state_ (fst st')) < 2 -> pacing_gain_ (fst st') = Double.lit_1_0).
Proof.
  destruct st as [a c], st' as [a' c']. unfold step. cbn [fst snd].
  intros H [Hg H1].
  pose proof (recv_sample_switch _ _ _ _ _ _ _ H) as Hs.
  pose proof (phase_step_rank _ _ (recv_sample_phase_step _ _ _ _ _ _ _ H)) as Hr.
  destruct (state_ a) eqn:Ea; cbn [phase_rank] in *.
  - destruct Hs as (b & _ & _ & _ & _ & -> & _).
    split; [exact Hg | intros _; apply H1; lia].
  - destruct Hs as (t & _ & _ & _ & _ & -> & _).
    split; [exact Hg | intros _; apply H1; lia].
  - destruct Hs as (_ & _ & _ & -> & _).
    split; [apply cycle_gain_is_cycle_gain | intros; lia].
  - destruct Hs as (_ & _ & _ & -> & _).
    split; [exact Hg | intros; lia].
Qed.

(** X11. The pacing gain of an agent that started fresh is always one of 0.75,
    1.0 and 1.25, and it is 1.0 throughout STARTUP and DRAIN: the code has
    no start-up gain and no drain gain. *)
Theorem gain_along_run (size : Z) (xs : list Sample) (st : TcpBbrAgent * Z) :
  run (fresh size) xs = Some st ->
  is_cycle_gain (pacing_gain_ (fst st)) /\
  (state_ (fst st) = STARTUP \/ state_ (fst st) = DRAIN ->
   pacing_gain_ (fst st) = Double.lit_1_0).
Proof.
  intros H.
  assert (Hinv : forall ys s s', run s ys = Some s' ->
            is_cycle_gain (pacing_gain_ (fst s)) /\
            (phase_rank (state_ (fst s)) < 2 ->
             pacing_gain_ (fst s) = Double.lit_1_0) ->
            is_cycle_gain (pacing_gain_ (fst s')) /\
            (phase_rank (state_ (fst s')) < 2 ->
             pacing_gain_ (fst s') = Double.lit_1_0)).
  { induction ys as [ | y ys IH]; simpl; intros s s' Hr Hi.
    - inversion Hr; subst. exact Hi.
    - destruct (step s y) as [s1 | ] eqn:Hs; [ | discriminate].
      apply (IH _ _ Hr). apply (step_gain _ _ _ Hs Hi). }
  destruct (Hinv xs _ _ H) as (Hg & H1).
  { split; [right; left; reflexivity | reflexivity]. }
  split; [exact Hg | ].
  intros [Hs | Hs]; apply H1; rewrite Hs; simpl; lia.
Qed.

Lemma gain_along_run_witness :
  is_cycle_gain (pacing_gain_ Scenario.in_drain) /\
  (state_ Scenario.in_drain = STARTUP \/ state_ Scenario.in_drain = DRAIN ->
   pacing_gain_ Scenario.in_drain = Double.lit_1_0).
Proof.
  apply (gain_along_run 1000 (firstn 2 Scenario.to_probe_bw)
           (Scenario.in_drain, cycle_init)).
  vm_compute. reflexivity.
Defined.

(** * The pacing rate is an output *)

Lemma estimated_set_pacing_rate (clock : Double.double) (a : TcpBbrAgent)
    (v : Double.double) (delivered : Z) (rtt : Double.double) :
  estimated clock (set_pacing_rate a v) delivered rtt =
  set_pacing_rate (estimated clock a delivered rtt) v.
Proof.
  destruct a as [pg cg mb mr pr cw st tl ts sz].
  unfold estimated, update_max_bandwidth, update_min_rtt, set_pacing_rate.
  cbn [max_bandwidth_ set_max_bandwidth].
  destruct (Double.ltb mb _); cbn [min_rtt_ set_max_bandwidth set_min_rtt];
    destruct (Double.ltb rtt mr);
    cbn [state_ set_min_rtt set_max_bandwidth]; destruct st; reflexivity.
Qed.

Lemma state_machine_set_pacing_rate (clock : Double.double) (cycle : Z)
    (a : TcpBbrAgent) (v : Double.double) :
  state_machine clock cycle (set_pacing_rate a v) =
  match state_machine clock cycle a with
  | Some (a', cycle') => Some (set_pacing_rate a' v, cycle')
  | None => None
  end.
Proof.
  destruct a as [pg cg mb mr pr cw st tl ts sz].
  unfold state_machine, set_pacing_rate. cbn [state_].
  destruct st.
  - unfold bandwidth_growth_slows. cbn [max_bandwidth_ size_ cwnd_].
    destruct (Double.ltb _ mb); [ | reflexivity].
    destruct (Int.mul 10 sz) as [t | ]; [ | reflexivity].
    destruct (t <? cw); reflexivity.
  - unfold target_inflight. cbn [max_bandwidth_ min_rtt_ cwnd_].
    destruct (Int.of_double _) as [t | ]; [ | reflexivity].
    destruct (cw <=? t); reflexivity.
  - destruct (cycle_gain cycle) as [g c1].
    unfold time_to_probe_rtt. cbn [t_last_rtt_probe_ set_pacing_gain].
    destruct (Double.ltb _ _); reflexivity.
  - cbn [size_]. destruct (Int.mul 4 sz) as [w | ]; [ | reflexivity].
    unfold rtt_stable_for_long_enough. cbn [t_state_start_ set_cwnd].
    destruct (Double.ltb _ _); reflexivity.
Qed.

Lemma update_cwnd_set_pacing_rate (a : TcpBbrAgent) (v : Double.double) :
  update_cwnd (set_pacing_rate a v) =
  match update_cwnd a with
  | Some a' => Some (set_pacing_rate a' v)
  | None => None
  end.
Proof.
  destruct a as [pg cg mb mr pr cw st tl ts sz].
  unfold update_cwnd, set_pacing_rate.
  cbn [cwnd_gain_ max_bandwidth_ min_rtt_].
  destruct (Int.of_double _) as [w | ]; [ | reflexivity].
  cbn [cwnd_ size_ set_cwnd]. destruct (w <? sz); reflexivity.
Qed.

(** [recv] commutes with a write to [pacing_rate_]. *)
Lemma recv_sample_rate_irrelevant (clock : Double.double) (cycle : Z)
    (a : TcpBbrAgent) (v : Double.double) (delivered : Z) (rtt : Double.double) :
  recv_sample clock cycle (set_pacing_rate a v) delivered rtt =
  match recv_sample clock cycle a delivered rtt with
  | Some (a', cycle') => Some (set_pacing_rate a' v, cycle')
  | None => None
  end.
Proof.
  unfold recv_sample.
  rewrite estimated_set_pacing_rate, state_machine_set_pacing_rate.
  destruct (state_machine clock cycle _) as [[a1 c1] | ]; [ | reflexivity].
  cbn [fst snd]. rewrite update_cwnd_set_pacing_rate.
  destruct (update_cwnd a1); reflexivity.
Qed.

(** X12. [recv] never reads [pacing_rate_]: whatever value the field holds, the
    event computes the same agent and the same [cycle], and hands the
    field back untouched. *)
Theorem pacing_rate_not_read (clock : Double.double) (cycle : Z)
    (a : TcpBbrAgent) (v : Double.double) (delivered : Z) (rtt : Double.double) :
  recv_sample clock cycle (set_pacing_rate a v) delivered rtt =
  match recv_sample clock cycle a delivered rtt with
  | Some (a', cycle') => Some (set_pacing_rate a' v, cycle')
  | None => None
  end.
Proof. exact (recv_sample_rate_irrelevant clock cycle a v delivered rtt). Qed.

(** * The estimates along a run *)

Lemma run_monotone (xs : list Sample) :
  forall st st', run st xs = Some st' ->
  estimates_defined (fst st) ->
  Double.leb (max_bandwidth_ (fst st)) (max_bandwidth_ (fst st')) = true /\
  Double.leb (min_rtt_ (fst st')) (min_rtt_ (fst st)) = true.
Proof.
  induction xs as [ | x xs IH]; simpl; intros st st' H Hd.
  - inversion H; subst. destruct Hd as [Hb Hr].
    split; apply DoubleFacts.leb_refl; assumption.
  - destruct (step st x) as [st1 | ] eqn:Hs; [ | discriminate].
    destruct (step_monotone _ _ _ Hd Hs) as [Hb1 Hr1].
    destruct (IH _ _ H (step_estimates_defined _ _ _ Hs Hd)) as [Hb2 Hr2].
    split.
    + apply (DoubleOrder.leb_trans _ _ _ Hb1 Hb2).
    + apply (DoubleOrder.leb_trans _ _ _ Hr2 Hr1).
Qed.

(** After an event the estimates cover its sample. *)
Lemma step_covers_sample (st st' : TcpBbrAgent * Z) (x : Sample) :
  estimates_defined (fst st) ->
  step st x = Some st' ->
  (Double.is_nan (sample_rate x) = false ->
   Double.leb (sample_rate x) (max_bandwidth_ (fst st')) = true) /\
  (Double.is_nan (s_rtt x) = false ->
   Double.leb (min_rtt_ (fst st')) (s_rtt x) = true).
Proof.
  intros [Hb Hr] Hs.
  destruct (step_fields _ _ _ Hs) as (Hb' & Hr' & _).
  rewrite Hb', Hr'. unfold update_max_bandwidth, update_min_rtt.
  fold (sample_rate x). split; intros Hn.
  - destruct (Double.ltb (max_bandwidth_ (fst st)) (sample_rate x)) eqn:E;
      cbn [max_bandwidth_ set_max_bandwidth].
    + apply DoubleFacts.leb_refl, Hn.
    + apply DoubleOrder.not_ltb_leb; assumption.
  - destruct (Double.ltb (s_rtt x) (min_rtt_ (fst st))) eqn:E;
      cbn [min_rtt_ set_min_rtt].
    + apply DoubleFacts.leb_refl, Hn.
    + apply DoubleOrder.not_ltb_leb; assumption.
Qed.

Lemma run_covers_samples (xs : list Sample) :
  forall st st' x, run st xs = Some st' ->
  estimates_defined (fst st) -> In x xs ->
  (Double.is_nan (sample_rate x) = false ->
   Double.leb (sample_rate x) (max_bandwidth_ (fst st')) = true) /\
  (Double.is_nan (s_rtt x) = false ->
   Double.leb (min_rtt_ (fst st')) (s_rtt x) = true).
Proof.
  induction xs as [ | y ys IH]; simpl; intros st st' x H Hd Hin.
  - contradiction.
  - destruct (step st y) as [st1 | ] eqn:Hs; [ | discriminate].
    pose proof (step_estimates_defined _ _ _ Hs Hd) as Hd1.
    destruct Hin as [-> | Hin].
    + destruct (step_covers_sample _ _ _ Hd Hs) as [Hb Hr].
      destruct (run_monotone _ _ _ H Hd1) as [Hb2 Hr2].
      split; intros Hn.
      * apply (DoubleOrder.leb_trans _ _ _ (Hb Hn) Hb2).
      * apply (DoubleOrder.leb_trans _ _ _ Hr2 (Hr Hn)).
    + apply (IH _ _ _ H Hd1 Hin).
Qed.

Lemma run_attains (xs : list Sample) :
  forall st st', run st xs = Some st' ->
  (max_bandwidth_ (fst st') = max_bandwidth_ (fst st) \/
   exists x, In x xs /\ max_bandwidth_ (fst st') = sample_rate x) /\
  (min_rtt_ (fst st') = min_rtt_ (fst st) \/
   exists x, In x xs /\ min_rtt_ (fst st') = s_rtt x).
Proof.
  induction xs as [ | y ys IH]; simpl; intros st st' H.
  - inversion H; subst. auto.
  - destruct (step st y) as [st1 | ] eqn:Hs; [ | discriminate].
    destruct (step_fields _ _ _ Hs) as (Hb & Hr & _).
    destruct (IH _ _ H) as [Hb2 Hr2]. split.
    + destruct Hb2 as [Hb2 | (x & Hin & Hx)]; [ | right; exists x; auto].
      rewrite Hb2, Hb. unfold update_max_bandwidth. fold (sample_rate y).
      destruct (Double.ltb _ _); cbn [max_bandwidth_ set_max_bandwidth];
        [right; exists y; auto | left; reflexivity].
    + destruct Hr2 as [Hr2 | (x & Hin & Hx)]; [ | right; exists x; auto].
      rewrite Hr2, Hr. unfold update_min_rtt.
      destruct (Double.ltb _ _); cbn [min_rtt_ set_min_rtt];
        [right; exists y; auto | left; reflexivity].
Qed.

(** X15. [max_bandwidth_] is the all-time maximum: after any sequence of events
    it is 0 or the rate [delivered / rtt] of one of the samples, and it
    is not below the rate of any sample processed (a rate that is a NaN
    apart).  No sample is ever forgotten: there is no window and no
    decay. *)
Theorem max_bandwidth_all_time_max (size : Z) (xs : list Sample)
    (st : TcpBbrAgent * Z) :
  run (fresh size) xs = Some st ->
  (max_bandwidth_ (fst st) = Double.lit_0_0 \/
   exists x, In x xs /\ max_bandwidth_ (fst st) = sample_rate x) /\
  forall x, In x xs -> Double.is_nan (sample_rate x) = false ->
    Double.leb (sample_rate x) (max_bandwidth_ (fst st)) = true.
Proof.
  intros H. split.
  - apply (run_attains xs _ _ H).
  - intros x Hin.
    apply (run_covers_samples xs _ _ x H (fresh_estimates_defined size) Hin).
Qed.

Lemma max_bandwidth_all_time_max_witness :
  (max_bandwidth_ Scenario.in_probe_bw = Double.lit_0_0 \/
   exists x, In x Scenario.to_probe_bw /\
             max_bandwidth_ Scenario.in_probe_bw = sample_rate x) /\
  forall x, In x Scenario.to_probe_bw ->
    Double.is_nan (sample_rate x) = false ->
    Double.leb (sample_rate x) (max_bandwidth_ Scenario.in_probe_bw) = true.
Proof.
  apply (max_bandwidth_all_time_max 1000 Scenario.to_probe_bw
           (Scenario.in_probe_bw, cycle_init)).
  vm_compute. reflexivity.
Defined.

(** X16. [min_rtt_] is the all-time minimum: after any sequence of events it is
    the constructor's 1e9 or the round-trip time of one of the samples,
    and it is not above the round-trip time of any sample processed. *)
Theorem min_rtt_all_time_min (size : Z) (xs : list Sample)
    (st : TcpBbrAgent * Z) :
  run (fresh size) xs = Some st ->
  (min_rtt_ (fst st) = Double.lit_1e9 \/
   exists x, In x xs /\ min_rtt_ (fst st) = s_rtt x) /\
  forall x, In x xs -> Double.is_nan (s_rtt x) = false ->
    Double.leb (min_rtt_ (fst st)) (s_rtt x) = true.
Proof.
  intros H. split.
  - apply (run_attains xs _ _ H).
  - intros x Hin.
    apply (run_covers_samples xs _ _ x H (fresh_estimates_defined size) Hin).
Qed.

Lemma min_rtt_all_time_min_witness :
  (min_rtt_ Scenario.in_probe_bw = Double.lit_1e9 \/
   exists x, In x Scenario.to_probe_bw /\
             min_rtt_ Scenario.in_probe_bw = s_rtt x) /\
  forall x, In x Scenario.to_probe_bw ->
    Double.is_nan (s_rtt x) = false ->
    Double.leb (min_rtt_ Scenario.in_probe_bw) (s_rtt x) = true.
Proof.
  apply (min_rtt_all_time_min 1000 Scenario.to_probe_bw
           (Scenario.in_probe_bw, cycle_init)).
  vm_compute. reflexivity.
Defined.

(** * Signs *)

Module DoubleSigns.
Import Double.

Lemma mul_nonneg_nonpos (x y : double) :
  leb lit_0_0 x = true -> leb y lit_0_0 = true ->
  nonpos_or_nan (mul x y) = true.
Proof.
  destruct x as [[ | ] | [ | ] | | [ | ] m1 e1],
           y as [[ | ] | [ | ] | | [ | ] m2 e2];
    intros Hx Hy; try discriminate Hx; try discriminate Hy;
    try reflexivity.
  unfold nonpos_or_nan, mul, SFmul.
  change (xorb false true) with true.
  rewrite (DoubleFacts.binary_round_aux_signed true). apply orb_true_r.
Qed.

Lemma mul_2_nonpos (y : double) :
  nonpos_or_nan y = true -> nonpos_or_nan (mul lit_2_0 y) = true.
Proof.
  destruct y as [[ | ] | [ | ] | | [ | ] m e]; intros H;
    try discriminate H; try reflexivity.
  unfold nonpos_or_nan, mul, SFmul, lit_2_0.
    change (xorb false true) with true.
    rewrite (DoubleFacts.binary_round_aux_signed true). apply orb_true_r.
Qed.

Lemma trunc_nonpos (x : double) (w : Z) :
  nonpos_or_nan x = true -> trunc x = Some w -> w <= 0.
Proof.
  assert (Hv : forall v, 0 <= v -> Some (- v) = Some w -> w <= 0).
  { intros v Hv E. assert (w = - v) by congruence. lia. }
  destruct x as [s | s | | [ | ] m e]; intros H Ht;
    try discriminate H; try discriminate Ht.
  - assert (w = 0) by (cbn [trunc] in Ht; congruence). lia.
  - cbn [trunc] in Ht. apply (Hv _) in Ht; [exact Ht | ].
    destruct e as [ | p | p].
    + apply Z.mul_nonneg_nonneg; [lia | apply Z.pow_nonneg; lia].
    + apply Z.mul_nonneg_nonneg; [lia | apply Z.pow_nonneg; lia].
    + apply Z.quot_pos; [lia | ].
      rewrite Z.pow_pos_fold. apply Z.pow_pos_nonneg; lia.
Qed.

(** Below a double that is at most zero there are only such doubles. *)
Lemma leb_0_not_above (x : double) :
  leb x lit_0_0 = true -> ltb lit_0_0 x = false.
Proof.
  destruct x as [s | [ | ] | | [ | ] m e]; intros H;
    try discriminate H; reflexivity.
Qed.

Lemma ltb_0_leb_0 (x : double) : ltb lit_0_0 x = true -> leb lit_0_0 x = true.
Proof. apply DoubleFacts.ltb_leb. Qed.

End DoubleSigns.

Lemma step_max_nonneg (st st' : TcpBbrAgent * Z) (x : Sample) :
  step st x = Some st' ->
  Double.leb Double.lit_0_0 (max_bandwidth_ (fst st)) = true ->
  Double.leb Double.lit_0_0 (max_bandwidth_ (fst st')) = true.
Proof.
  intros Hs H0. destruct (step_fields _ _ _ Hs) as (Hb & _).
  rewrite Hb. unfold update_max_bandwidth.
  destruct (Double.ltb _ _) eqn:E; cbn [max_bandwidth_ set_max_bandwidth].
  - apply (DoubleOrder.leb_trans _ _ _ H0 (DoubleFacts.ltb_leb _ _ E)).
  - exact H0.
Qed.

Lemma run_max_nonneg (xs : list Sample) :
  forall st st', run st xs = Some st' ->
  Double.leb Double.lit_0_0 (max_bandwidth_ (fst st)) = true ->
  Double.leb Double.lit_0_0 (max_bandwidth_ (fst st')) = true.
Proof.
  induction xs as [ | x xs IH]; simpl; intros st st' H H0.
  - inversion H; subst. exact H0.
  - destruct (step st x) as [st1 | ] eqn:Hs; [ | discriminate].
    apply (IH _ _ H), (step_max_nonneg _ _ _ Hs H0).
Qed.

Lemma run_min_pos (xs : list Sample) :
  forall st st', run st xs = Some st' ->
  forallb valid_sample xs = true ->
  Double.ltb Double.lit_0_0 (min_rtt_ (fst st)) = true ->
  Double.ltb Double.lit_0_0 (min_rtt_ (fst st')) = true.
Proof.
  induction xs as [ | x xs IH]; simpl; intros st st' H Hv H0.
  - inversion H; subst. exact H0.
  - destruct (step st x) as [st1 | ] eqn:Hs; [ | discriminate].
    apply andb_prop in Hv. destruct Hv as [Hx Hv].
    apply (IH _ _ H Hv).
    destruct (step_fields _ _ _ Hs) as (_ & Hr & _).
    rewrite Hr. unfold update_min_rtt.
    destruct (Double.ltb (s_rtt x) _); cbn [min_rtt_ set_min_rtt].
    + unfold valid_sample in Hx. apply andb_prop in Hx. apply Hx.
    + exact H0.
Qed.

(** X17. The bandwidth estimate of an agent that started fresh is never
    negative, whatever the samples; and as long as every sample is valid
    (positive size and round-trip time) its [min_rtt_] is strictly
    positive. *)
Theorem estimates_signs (size : Z) (xs : list Sample) (st : TcpBbrAgent * Z) :
  run (fresh size) xs = Some st ->
  Double.leb Double.lit_0_0 (max_bandwidth_ (fst st)) = true /\
  (forallb valid_sample xs = true ->
   Double.ltb Double.lit_0_0 (min_rtt_ (fst st)) = true).
Proof.
  intros H. split.
  - apply (run_max_nonneg xs _ _ H). reflexivity.
  - intros Hv. apply (run_min_pos xs _ _ H Hv). reflexivity.
Qed.

Lemma estimates_signs_witness :
  Double.leb Double.lit_0_0 (max_bandwidth_ Scenario.in_probe_bw) = true /\
  (forallb valid_sample Scenario.to_probe_bw = true ->
   Double.ltb Double.lit_0_0 (min_rtt_ Scenario.in_probe_bw) = true).
Proof.
  apply (estimates_signs 1000 Scenario.to_probe_bw
           (Scenario.in_probe_bw, cycle_init)).
  vm_compute. reflexivity.
Defined.

(** * A round-trip time that is not positive *)

Lemma step_min_nonpos (st st' : TcpBbrAgent * Z) (x : Sample) :
  estimates_defined (fst st) ->
  step st x = Some st' ->
  Double.leb (s_rtt x) Double.lit_0_0 = true \/
  Double.leb (min_rtt_ (fst st)) Double.lit_0_0 = true ->
  Double.leb (min_rtt_ (fst st')) Double.lit_0_0 = true.
Proof.
  intros Hd Hs H.
  destruct (step_monotone _ _ _ Hd Hs) as [_ Hr].
  destruct H as [H | H].
  - destruct (DoubleOrder.leb_not_nan _ _ H) as [Hn _].
    destruct (step_covers_sample _ _ _ Hd Hs) as [_ Hc].
    apply (DoubleOrder.leb_trans _ _ _ (Hc Hn) H).
  - apply (DoubleOrder.leb_trans _ _ _ Hr H).
Qed.

Lemma step_window_pinned (st st' : TcpBbrAgent * Z) (x : Sample) :
  cwnd_gain_ (fst st) = Double.lit_2_0 ->
  0 <= size_ (fst st) ->
  step st x = Some st' ->
  Double.leb Double.lit_0_0 (max_bandwidth_ (fst st')) = true ->
  Double.leb (min_rtt_ (fst st')) Double.lit_0_0 = true ->
  cwnd_ (fst st') = size_ (fst st).
Proof.
  intros Hg Hz Hs Hb Hr.
  destruct (step_fields _ _ _ Hs) as (_ & _ & _ & Hg' & Hz' & w & Hw & Hc).
  rewrite Hg', Hg in Hw. rewrite Hz' in Hc. rewrite Hc.
  unfold Int.of_double in Hw.
  destruct (Double.trunc _) as [z | ] eqn:Ht; [ | discriminate].
  unfold Int.checked in Hw.
  destruct (Int.in_range z); [ | discriminate]. injection Hw as ->.
  apply DoubleSigns.trunc_nonpos in Ht.
  - lia.
  - apply DoubleSigns.mul_2_nonpos, DoubleSigns.mul_nonneg_nonpos; assumption.
Qed.

Lemma pinned_step (size : Z) (s s' : TcpBbrAgent * Z) (x : Sample) :
  0 <= size ->
  estimates_defined (fst s) /\
  cwnd_gain_ (fst s) = Double.lit_2_0 /\ size_ (fst s) = size /\
  Double.leb Double.lit_0_0 (max_bandwidth_ (fst s)) = true ->
  Double.leb (s_rtt x) Double.lit_0_0 = true \/
  Double.leb (min_rtt_ (fst s)) Double.lit_0_0 = true ->
  step s x = Some s' ->
  (estimates_defined (fst s') /\
   cwnd_gain_ (fst s') = Double.lit_2_0 /\ size_ (fst s') = size /\
   Double.leb Double.lit_0_0 (max_bandwidth_ (fst s')) = true) /\
  Double.leb (min_rtt_ (fst s')) Double.lit_0_0 = true /\
  cwnd_ (fst s') = size.
Proof.
  intros Hz (Hd & Hg & Hs & Hb) Hr H.
  destruct (step_fields _ _ _ H) as (_ & _ & _ & Hg1 & Hz1 & _).
  pose proof (step_max_nonneg _ _ _ H Hb) as Hb1.
  pose proof (step_min_nonpos _ _ _ Hd H Hr) as Hr1.
  split; [ | split; [exact Hr1 | ]].
  - split; [apply (step_estimates_defined _ _ _ H Hd) | ].
    split; [congruence | ]. split; [congruence | exact Hb1].
  - rewrite (step_window_pinned s s' x Hg); [exact Hs | lia | exact H | | ];
      assumption.
Qed.

(** X18. One sample whose round-trip time is zero or negative (a packet
    stamped at or after the clock) pins the window for good: from that
    event on, every event that completes leaves [cwnd_] at exactly one
    segment, because [min_rtt_] never goes back up. *)
Theorem nonpositive_rtt_pins_window (size : Z) (xs ys : list Sample)
    (x : Sample) (st : TcpBbrAgent * Z) :
  0 <= size ->
  Double.leb (s_rtt x) Double.lit_0_0 = true ->
  run (fresh size) (xs ++ x :: ys) = Some st ->
  cwnd_ (fst st) = size /\
  Double.leb (min_rtt_ (fst st)) Double.lit_0_0 = true.
Proof.
  intros Hz Hx H. rewrite run_app in H.
  destruct (run (fresh size) xs) as [s0 | ] eqn:H0; [ | discriminate].
  cbn [run] in H.
  destruct (step s0 x) as [s1 | ] eqn:H1; [ | discriminate].
  assert (Hinv0 :
    estimates_defined (fst s0) /\
    cwnd_gain_ (fst s0) = Double.lit_2_0 /\ size_ (fst s0) = size /\
    Double.leb Double.lit_0_0 (max_bandwidth_ (fst s0)) = true).
  { destruct (run_constants _ _ _ H0) as (Hg0 & Hz0 & _).
    split; [ | split; [exact Hg0 | split; [exact Hz0 | ]]].
    - apply (run_estimates_defined xs _ _ H0), fresh_estimates_defined.
    - apply (run_max_nonneg xs _ _ H0). reflexivity. }
  pose proof (pinned_step size s0 s1 x Hz Hinv0 (or_introl Hx) H1) as Hinv.
  clear H0 H1 Hinv0 Hx. revert s1 H Hinv.
  induction ys as [ | y ys IH]; cbn [run]; intros s1 H Hinv.
  - inversion H; subst. destruct Hinv as (_ & Hr & Hc). auto.
  - destruct (step s1 y) as [s2 | ] eqn:H2; [ | discriminate].
    apply (IH s2 H).
    destruct Hinv as (Hi & Hr & _).
    apply (pinned_step size s1 s2 y Hz Hi (or_intror Hr) H2).
Qed.

Lemma nonpositive_rtt_pins_window_witness :
  exists st,
    run (fresh 1000)
      (Scenario.to_probe_bw ++
       mkSample (Scenario.seconds 4) 20000 (Double.of_int (-1)) ::
       [Scenario.cruise; Scenario.cruise]) = Some st /\
    cwnd_ (fst st) = 1000 /\
    Double.leb (min_rtt_ (fst st)) Double.lit_0_0 = true.
Proof.
  eexists.
  split; [vm_compute; reflexivity | ].
  apply (nonpositive_rtt_pins_window 1000 Scenario.to_probe_bw
           [Scenario.cruise; Scenario.cruise]
           (mkSample (Scenario.seconds 4) 20000 (Double.of_int (-1)))).
  - lia.
  - vm_compute. reflexivity.
  - vm_compute. reflexivity.
Defined.

(** * Conversions that are exact *)

Module DoubleExact.
Import Double.

Lemma digits2_iter (p k : positive) :
  digits2_pos (Pos.iter xO p k) = (digits2_pos p + k)%positive.
Proof.
  induction k as [ | k IH] using Pos.peano_ind.
  - cbn. rewrite Pos.add_1_r. reflexivity.
  - rewrite Pos.iter_succ. cbn [digits2_pos]. rewrite IH.
    rewrite Pos.add_succ_r. reflexivity.
Qed.

Lemma digits2_bound (p : positive) :
  forall n, 0 <= n -> Z.pos p < 2 ^ n -> Z.pos (digits2_pos p) <= n.
Proof.
  induction p as [p IH | p IH | ]; intros n Hn H; cbn [digits2_pos].
  - destruct (Z.eq_dec n 0) as [-> | Hne]; [simpl in H; lia | ].
    replace n with (Z.succ (n - 1)) in H by lia.
    rewrite Z.pow_succ_r in H by lia.
    specialize (IH (n - 1)). rewrite Pos2Z.inj_succ. lia.
  - destruct (Z.eq_dec n 0) as [-> | Hne]; [simpl in H; lia | ].
    replace n with (Z.succ (n - 1)) in H by lia.
    rewrite Z.pow_succ_r in H by lia.
    specialize (IH (n - 1)). rewrite Pos2Z.inj_succ. lia.
  - destruct (Z.eq_dec n 0) as [-> | Hne]; [simpl in H; lia | lia].
Qed.

(** A mantissa of 53 digits with an exponent in range is left as it is. *)
Lemma shr_fexp_canonical (m : positive) (e : Z) :
  Z.pos (digits2_pos m) = 53 -> -1074 <= e ->
  shr_fexp prec emax (Z.pos m) e loc_Exact =
  ({| shr_m := Z.pos m; shr_r := false; shr_s := false |}, e).
Proof.
  intros Hd He. unfold shr_fexp, fexp, emin, Zdigits2, prec, emax.
  rewrite Hd.
  replace (Z.max (53 + e - 53) (3 - 1024 - 53) - e) with 0 by lia.
  reflexivity.
Qed.

Lemma binary_round_aux_canonical (s : bool) (m : positive) (e : Z) :
  Z.pos (digits2_pos m) = 53 -> -1074 <= e <= 971 ->
  binary_round_aux prec emax s (Z.pos m) e loc_Exact = S754_finite s m e.
Proof.
  intros Hd He. unfold binary_round_aux.
  rewrite (shr_fexp_canonical m e Hd) by lia.
  cbn [shr_m loc_of_shr_record round_nearest_even].
  rewrite (shr_fexp_canonical m e Hd) by lia.
  cbn [shr_m].
  replace (e <=? emax - prec) with true; [reflexivity | ].
  symmetry. apply Z.leb_le. unfold emax, prec. lia.
Qed.

(** An [int] with fewer than 53 digits converts to the double with the
    same digits, shifted to the top of the mantissa. *)
Lemma binary_round_small (s : bool) (p k : positive) :
  Z.pos (digits2_pos p) + Z.pos k = 53 ->
  binary_round prec emax s p 0 = S754_finite s (Pos.iter xO p k) (Z.neg k).
Proof.
  intros Hd. unfold binary_round, shl_align, fexp, emin, prec, emax.
  replace (Z.max (Z.pos (digits2_pos p) + 0 - 53) (3 - 1024 - 53) - 0)
    with (Z.neg k) by lia.
  replace (Z.max (Z.pos (digits2_pos p) + 0 - 53) (3 - 1024 - 53))
    with (Z.neg k) by lia.
  apply binary_round_aux_canonical.
  - rewrite digits2_iter, Pos2Z.inj_add. exact Hd.
  - lia.
Qed.

Lemma of_int_small (z : Z) :
  0 < z <= Int.max_int ->
  exists m e, of_int z = S754_finite false m e.
Proof.
  intros [H0 H1]. destruct z as [ | p | p]; try lia.
  assert (Hd : Z.pos (digits2_pos p) <= 31).
  { apply digits2_bound; [lia | ]. unfold Int.max_int in H1. lia. }
  destruct (53 - Z.pos (digits2_pos p)) as [ | k | k] eqn:Ek; try lia.
  exists (Pos.iter xO p k), (Z.neg k).
  unfold of_int, binary_normalize. apply binary_round_small. lia.
Qed.

Lemma sub_diag (x : double) :
  is_finite x = true -> sub x x = S754_zero false.
Proof.
  destruct x as [[ | ] | s | | s m e]; intros H;
    try discriminate H; try reflexivity.
  unfold sub, SFsub. rewrite Z.sub_diag. reflexivity.
Qed.

End DoubleExact.

(** * A packet stamped with the clock *)

Lemma mul_inf_not_finite (x y : Double.double) :
  x = S754_infinity false \/ x = S754_nan ->
  Double.ltb Double.lit_0_0 y = false ->
  is_finite (Double.mul x y) = false.
Proof.
  intros [-> | ->] Hy; [ | reflexivity].
  destruct y as [s | [ | ] | | [ | ] m e]; try discriminate Hy; reflexivity.
Qed.

Lemma mul_not_finite (g x : Double.double) :
  is_finite x = false -> is_finite (Double.mul g x) = false.
Proof.
  destruct x as [s | s | | s m e]; intros H; try discriminate H;
    destruct g; reflexivity.
Qed.

Lemma of_double_not_finite (x : Double.double) :
  is_finite x = false -> Int.of_double x = None.
Proof. destruct x; intros H; try discriminate H; reflexivity. Qed.

(** X19. A packet of positive size whose time stamp equals the clock gives a
    round-trip time of zero.  [recv] then divides by zero: the bandwidth
    estimate becomes infinite (or stays a NaN), its product with a
    [min_rtt_] that is now at most zero is a NaN or an infinity, and the
    conversion of the window to [int] is undefined.  No event of this kind
    completes, from any agent. *)
Theorem recv_zero_rtt_undefined (clock : Double.double) (cycle : Z)
    (a : TcpBbrAgent) (pkt : Packet) :
  is_finite clock = true ->
  ts pkt = clock ->
  0 < size pkt <= Int.max_int ->
  recv clock cycle a pkt = None.
Proof.
  intros Hc Hts Hsz. unfold recv. rewrite Hts, (DoubleExact.sub_diag _ Hc).
  destruct (DoubleExact.of_int_small _ Hsz) as (m & e & Hd).
  unfold recv_sample.
  destruct (estimated_fields clock a (size pkt) (S754_zero false))
    as (Hb & Hr & _ & Hg & _).
  set (a1 := estimated clock a (size pkt) (S754_zero false)) in *.
  destruct (state_machine clock cycle a1) as [[a2 c2] | ] eqn:Hsm;
    [ | reflexivity].
  cbn [fst snd].
  destruct (state_machine_frame _ _ _ _ _ Hsm) as (Hb2 & Hr2 & _ & Hg2 & _).
  unfold update_cwnd. rewrite Hb2, Hr2, Hg2, Hb, Hr.
  rewrite of_double_not_finite; [reflexivity | ].
  apply mul_not_finite, mul_inf_not_finite.
  - unfold update_max_bandwidth. rewrite Hd.
    change (Double.div (S754_finite false m e) (S754_zero false))
      with (S754_infinity false).
    destruct (Double.ltb (max_bandwidth_ a) (S754_infinity false)) eqn:E;
      cbn [max_bandwidth_ set_max_bandwidth]; [left; reflexivity | ].
    destruct (max_bandwidth_ a) as [s | [ | ] | | s m' e'];
      try discriminate E; auto.
  - unfold update_min_rtt.
    destruct (Double.ltb (S754_zero false) (min_rtt_ a)) eqn:E;
      cbn [min_rtt_ set_min_rtt]; [reflexivity | exact E].
Qed.

Lemma recv_zero_rtt_undefined_witness :
  recv (Scenario.seconds 4) cycle_init Scenario.in_probe_bw
    (mkPacket (Scenario.seconds 4) 20000) = None.
Proof.
  apply (recv_zero_rtt_undefined (Scenario.seconds 4) cycle_init
           Scenario.in_probe_bw (mkPacket (Scenario.seconds 4) 20000)).
  - reflexivity.
  - reflexivity.
  - cbn [size]. split; [lia | vm_compute; discriminate].
Defined.

(** * An event in PROBE_BW *)

(** X9. Every event that finds the agent in PROBE_BW installs the next gain of
    the cycle, the event that moves it to PROBE_RTT included, so PROBE_RTT
    runs with whatever gain the cycle had reached; and the agent moves to
    PROBE_RTT exactly when the clock is more than 10 s past
    [t_last_rtt_probe_]. *)
Theorem probe_bw_event (clock : Double.double) (cycle : Z)
    (a a' : TcpBbrAgent) (delivered : Z) (rtt : Double.double) (cycle' : Z) :
  state_ a = PROBE_BW ->
  0 <= cycle < 8 ->
  recv_sample clock cycle a delivered rtt = Some (a', cycle') ->
  pacing_gain_ a' = gain_of_call (cycle + 1) /\
  (state_ a' = PROBE_RTT <->
   Double.ltb Double.lit_10_0 (Double.sub clock (t_last_rtt_probe_ a)) = true) /\
  (state_ a' = PROBE_BW \/ state_ a' = PROBE_RTT).
Proof.
  intros Ha Hc H.
  pose proof (recv_sample_switch _ _ _ _ _ _ _ H) as Hs. rewrite Ha in Hs.
  destruct Hs as (Hst & _ & _ & Hg & _). split.
  - rewrite Hg. replace cycle with (cycle mod 8) at 1
      by (apply Z.mod_small; exact Hc).
    rewrite cycle_gain_count by lia. reflexivity.
  - rewrite Hst. destruct (Double.ltb _ _).
    + split; [ | right; reflexivity]. split; reflexivity.
    + split; [ | left; reflexivity]. split; discriminate.
Qed.

Lemma probe_bw_event_witness :
  exists a' c',
    recv_sample (Scenario.seconds 11) 7 Scenario.in_probe_bw
      20000 (Scenario.seconds 1) = Some (a', c') /\
    state_ a' = PROBE_RTT /\
    pacing_gain_ a' = Double.lit_1_25 /\
    pacing_gain_ a' = gain_of_call (7 + 1).
Proof.
  do 2 eexists.
  split; [vm_compute; reflexivity | ].
  split; [reflexivity | ].
  split; [reflexivity | ].
  eapply (probe_bw_event (Scenario.seconds 11) 7 Scenario.in_probe_bw _
            20000 (Scenario.seconds 1)).
  - reflexivity.
  - lia.
  - vm_compute. reflexivity.
Defined.

(** * When [recv] completes *)

(** X20. [recv] completes unless an [int] is out of range.  If ten and four
    segment sizes fit an [int], and the bandwidth-delay product of the
    updated estimates and its double both convert to [int], the event
    returns, with the window [max w size_] for the converted double [w]. *)
Theorem recv_completes (clock : Double.double) (cycle : Z) (a : TcpBbrAgent)
    (delivered : Z) (rtt : Double.double) (t w : Z) :
  Int.in_range (10 * size_ a) = true ->
  Int.in_range (4 * size_ a) = true ->
  target_inflight (estimated clock a delivered rtt) = Some t ->
  Int.of_double
    (Double.mul (cwnd_gain_ a)
       (Double.mul (max_bandwidth_ (estimated clock a delivered rtt))
          (min_rtt_ (estimated clock a delivered rtt)))) = Some w ->
  exists a' cycle',
    recv_sample clock cycle a delivered rtt = Some (a', cycle') /\
    cwnd_ a' = Z.max w (size_ a).
Proof. exact (recv_sample_returns clock cycle a delivered rtt t w). Qed.

Lemma recv_completes_witness :
  exists a' c',
    recv_sample (Scenario.seconds 3) cycle_init Scenario.in_drain
      20000 (Scenario.seconds 1) = Some (a', c') /\
    cwnd_ a' = Z.max 40000 (size_ Scenario.in_drain).
Proof.
  apply (recv_completes (Scenario.seconds 3) cycle_init Scenario.in_drain
           20000 (Scenario.seconds 1) 20000 40000);
    vm_compute; reflexivity.
Defined.

(** * [sendmsg] among the events *)

Lemma step_rate_irrelevant (a b : TcpBbrAgent) (c : Z) (x : Sample) :
  set_pacing_rate a (pacing_rate_ b) = b ->
  match step (b, c) x, step (a, c) x with
  | Some s1, Some s2 =>
      set_pacing_rate (fst s2) (pacing_rate_ (fst s1)) = fst s1 /\
      snd s1 = snd s2
  | None, None => True
  | _, _ => False
  end.
Proof.
  intros <-. unfold step. cbn [fst snd].
  rewrite recv_sample_rate_irrelevant.
  destruct (recv_sample _ c a _ _) as [[a' c'] | ]; [ | exact I].
  cbn [fst snd]. split; reflexivity.
Qed.

(** X13. Calls of [sendmsg] do not steer the agent: a sequence of [recv] and
    [sendmsg] calls and the same sequence with the [sendmsg] calls removed
    complete together, and end with the same [cycle] and with agents that
    differ in [pacing_rate_] at most. *)
Theorem sendmsg_does_not_steer (evs : list Event) (st : TcpBbrAgent * Z) :
  match handle_all st evs, run st (samples_of evs) with
  | Some s1, Some s2 =>
      set_pacing_rate (fst s2) (pacing_rate_ (fst s1)) = fst s1 /\
      snd s1 = snd s2
  | None, None => True
  | _, _ => False
  end.
Proof.
  assert (G : forall evs a b c,
    set_pacing_rate a (pacing_rate_ b) = b ->
    match handle_all (b, c) evs, run (a, c) (samples_of evs) with
    | Some s1, Some s2 =>
        set_pacing_rate (fst s2) (pacing_rate_ (fst s1)) = fst s1 /\
        snd s1 = snd s2
    | None, None => True
    | _, _ => False
    end).
  { clear. induction evs as [ | ev evs' IH]; intros a b c Hab.
    - cbn. split; [exact Hab | reflexivity].
    - destruct ev as [x | ]; cbn [handle_all handle samples_of run].
      + pose proof (step_rate_irrelevant a b c x Hab) as Hs.
        destruct (step (b, c) x) as [[b1 c1] | ],
                 (step (a, c) x) as [[a1 c2] | ]; try contradiction.
        * cbn [fst snd] in Hs. destruct Hs as [Hr ->]. apply (IH _ _ _ Hr).
        * exact I.
      + cbn [fst snd]. apply IH.
        rewrite <- Hab. destruct a; reflexivity. }
  destruct st as [a c]. apply G. destruct a; reflexivity.
Qed.

(** * The published rate is never negative *)

Module DoubleRound.
Import Double.

Lemma shr_1_nonneg (mrs : shr_record) :
  0 <= shr_m mrs -> 0 <= shr_m (shr_1 mrs).
Proof.
  destruct mrs as [m r s]. cbn [shr_m]. intros H.
  destruct m as [ | p | p]; [ | destruct p | lia]; cbn; lia.
Qed.

Lemma iter_shr_1_nonneg (p : positive) :
  forall mrs, 0 <= shr_m mrs -> 0 <= shr_m (iter_pos shr_1 p mrs).
Proof.
  induction p as [p IH | p IH | ]; intros mrs H; cbn [iter_pos].
  - apply IH, IH, shr_1_nonneg, H.
  - apply IH, IH, H.
  - apply shr_1_nonneg, H.
Qed.

Lemma shr_fexp_nonneg (m e : Z) (l : location) :
  0 <= m -> 0 <= shr_m (fst (shr_fexp prec emax m e l)).
Proof.
  intros H. unfold shr_fexp, shr.
  assert (Hm : shr_m (shr_record_of_loc m l) = m)
    by (destruct l as [ | [ | | ]]; reflexivity).
  destruct (fexp prec emax (Zdigits2 m + e) - e) as [ | p | p]; cbn [fst].
  - rewrite Hm. exact H.
  - apply iter_shr_1_nonneg. rewrite Hm. exact H.
  - rewrite Hm. exact H.
Qed.

Lemma round_nearest_even_nonneg (m : Z) (l : location) :
  0 <= m -> 0 <= round_nearest_even m l.
Proof.
  intros H. destruct l as [ | [ | | ]]; cbn [round_nearest_even];
    try destruct (Z.even m); lia.
Qed.

(** Rounding a non-negative mantissa gives a zero, a finite double or an
    infinity of the sign asked for, never a NaN. *)
Lemma binary_round_aux_not_nan (s : bool) (m e : Z) (l : location) :
  0 <= m -> is_nan (binary_round_aux prec emax s m e l) = false.
Proof.
  intros H. unfold binary_round_aux.
  pose proof (shr_fexp_nonneg m e l H) as H1.
  destruct (shr_fexp prec emax m e l) as [mrs' e']. cbn [fst] in H1.
  pose proof (shr_fexp_nonneg _ e' loc_Exact
                (round_nearest_even_nonneg _ (loc_of_shr_record mrs') H1)) as H2.
  destruct (shr_fexp prec emax _ e' loc_Exact) as [mrs'' e'']. cbn [fst] in H2.
  destruct (shr_m mrs'') as [ | p | p]; [reflexivity | | lia].
  destruct (Z.leb e'' _); reflexivity.
Qed.

Lemma mul_pos_nonneg (m : positive) (e : Z) (x : double) :
  leb lit_0_0 x = true ->
  leb lit_0_0 (mul (S754_finite false m e) x) = true.
Proof.
  destruct x as [s | [ | ] | | [ | ] mx ex]; intros H;
    try discriminate H; try reflexivity.
  unfold mul, SFmul. change (xorb false false) with false.
  pose proof (DoubleFacts.binary_round_aux_signed false
                (Z.pos (m * mx)) (e + ex) loc_Exact) as Hs.
  pose proof (binary_round_aux_not_nan false
                (Z.pos (m * mx)) (e + ex) loc_Exact) as Hn.
  destruct (binary_round_aux prec emax false _ _ loc_Exact)
    as [s | [ | ] | | [ | ] m' e'];
    try discriminate Hs; try reflexivity.
  discriminate Hn. lia.
Qed.

End DoubleRound.

Lemma step_is_cycle_gain (st st' : TcpBbrAgent * Z) (x : Sample) :
  step st x = Some st' ->
  is_cycle_gain (pacing_gain_ (fst st)) ->
  is_cycle_gain (pacing_gain_ (fst st')).
Proof.
  destruct st as [a c], st' as [a' c']. unfold step. cbn [fst snd].
  intros H Hg. pose proof (recv_sample_switch _ _ _ _ _ _ _ H) as Hs.
  destruct (state_ a).
  - destruct Hs as (b & _ & _ & _ & _ & -> & _). exact Hg.
  - destruct Hs as (t & _ & _ & _ & _ & -> & _). exact Hg.
  - destruct Hs as (_ & _ & _ & -> & _). apply cycle_gain_is_cycle_gain.
  - destruct Hs as (_ & _ & _ & -> & _). exact Hg.
Qed.

Lemma rate_nonneg (g b : Double.double) :
  is_cycle_gain g -> Double.leb Double.lit_0_0 b = true ->
  Double.leb Double.lit_0_0 (Double.mul g b) = true.
Proof.
  intros [-> | [-> | ->]] Hb; apply DoubleRound.mul_pos_nonneg, Hb.
Qed.

(** X14. Whatever calls of [recv] and [sendmsg] an agent has received since it
    was created, and whatever the samples were, the pacing rate it
    publishes is not negative and not a NaN. *)
Theorem published_rate_nonneg (size : Z) (evs : list Event)
    (st : TcpBbrAgent * Z) :
  handle_all (fresh size) evs = Some st ->
  Double.leb Double.lit_0_0 (pacing_rate_ (fst st)) = true.
Proof.
  intros H.
  assert (G : forall evs s s', handle_all s evs = Some s' ->
    is_cycle_gain (pacing_gain_ (fst s)) /\
    Double.leb Double.lit_0_0 (max_bandwidth_ (fst s)) = true /\
    Double.leb Double.lit_0_0 (pacing_rate_ (fst s)) = true ->
    Double.leb Double.lit_0_0 (pacing_rate_ (fst s')) = true).
  { clear. induction evs as [ | ev evs' IH]; cbn [handle_all];
      intros s s' H (Hg & Hb & Hr).
    - inversion H; subst. exact Hr.
    - destruct (handle s ev) as [s1 | ] eqn:Hs; [ | discriminate].
      apply (IH _ _ H). destruct ev as [x | ]; cbn [handle] in Hs.
      + destruct (step_fields _ _ _ Hs) as (_ & _ & Hp & _).
        split; [apply (step_is_cycle_gain _ _ _ Hs Hg) | ].
        split; [apply (step_max_nonneg _ _ _ Hs Hb) | ].
        rewrite Hp. exact Hr.
      + injection Hs as <-. cbn [fst].
        split; [exact Hg | ]. split; [exact Hb | ].
        apply rate_nonneg; assumption. }
  apply (G evs _ _ H).
  split; [right; left; reflexivity | split; reflexivity].
Qed.

Lemma published_rate_nonneg_witness :
  exists st,
    handle_all (fresh 1000)
      (map Deliver Scenario.to_probe_bw ++ [Deliver Scenario.cruise; Send])
      = Some st /\
    pacing_rate_ (fst st) = Double.of_int 15000 /\
    Double.leb Double.lit_0_0 (pacing_rate_ (fst st)) = true.
Proof.
  eexists.
  split; [vm_compute; reflexivity | ].
  split; [vm_compute; reflexivity | ].
  apply (published_rate_nonneg 1000
           (map Deliver Scenario.to_probe_bw ++ [Deliver Scenario.cruise; Send])).
  vm_compute. reflexivity.
Defined.
